(** * Zipper: ZIP archives with JSON metadata in the comment fields

    A shallow embedding of [zipper/core.py] and of the parts of the Python
    standard library it calls ([json], [str.encode]/[bytes.decode],
    [os.path], [zipfile]), with the properties of the metadata codec and of
    the archive handle proved over it.

    The limits of the interpreter (recursion depth, the digit limit of the
    conversions between [int] and [str], memory) are not modelled, and
    [os.path] is that of POSIX.

    Conventions.
    - A Python [str] is a list of code points ([N]); [bytes] is a list of
      [byte].
    - A Python call that may raise returns an [outcome]: [Returns v] or
      [Raises e].
    - Methods that mutate the handle return the outcome together with the
      handle as it is left. *)

From Stdlib Require Import ZArith NArith Lia String Ascii.
From Stdlib Require Import Strings.Byte.
From Stdlib Require DecimalN DecimalFacts.
From stdpp Require Import gmap list strings.

Local Open Scope N_scope.

(** ** Python strings and bytes *)

Abbreviation str := (list N).
Abbreviation bytes := (list byte).

(** The [str] of an ASCII literal. *)
Definition py (s : string) : str :=
  (λ a, N_of_ascii a) <$> list_ascii_of_string s.

(** The [bytes] of an ASCII literal, as in [b"..."]. *)
Definition pyb (s : string) : bytes := list_byte_of_string s.

Definition byte_of_N (n : N) : byte :=
  match Byte.of_N (n mod 256) with
  | Some b => b
  | None => x00
  end.

(** ** Exceptions and outcomes *)

Inductive exn : Type :=
| RuntimeError (msg : string)
| ValueError (msg : string)
| FileNotFoundError (path : str)
| IsADirectoryError (path : str)
| KeyError (name : str)
| AttributeError
| IndexError
| TypeError
| JSONDecodeError
| UnicodeDecodeError
| UnicodeEncodeError.

Inductive outcome (A : Type) : Type :=
| Returns (a : A)
| Raises (e : exn).
Arguments Returns {A} a.
Arguments Raises {A} e.

#[global] Instance outcome_ret : MRet outcome := λ A a, Returns a.
#[global] Instance outcome_bind : MBind outcome := λ A B f m,
  match m with
  | Returns a => f a
  | Raises e => Raises e
  end.
#[global] Instance outcome_fmap : FMap outcome := λ A B f m,
  match m with
  | Returns a => Returns (f a)
  | Raises e => Raises e
  end.

(** ** [bytes.decode('utf-8', errors)] and [str.encode('utf-8')] *)

Module utf8.

Inductive error_handler : Type := strict | replace.

Definition continuation (c : N) : bool := (0x80 <=? c) && (c <=? 0xBF).

(** What the decoder does at a malformed sequence: [strict] raises,
    [replace] emits U+FFFD and resumes after the offending bytes. *)
Definition malformed (errors : error_handler) (resume : outcome str)
  : outcome str :=
  match errors with
  | strict => Raises UnicodeDecodeError
  | replace => cons 0xFFFD <$> resume
  end.

(** The decoder of CPython: a lead byte is followed by the continuation
    bytes its range asks for; overlong forms, surrogates and values above
    U+10FFFF are rejected at the second byte. A malformed sequence covers
    the lead byte and the continuation bytes accepted so far; a sequence
    cut by the end of the data covers what is left of it. *)
Fixpoint decode (errors : error_handler) (bs : bytes) : outcome str :=
  match bs with
  | [] => Returns []
  | b0 :: r0 =>
    let c0 := Byte.to_N b0 in
    if c0 <? 0x80 then cons c0 <$> decode errors r0
    else if c0 <? 0xC2 then malformed errors (decode errors r0)
    else if c0 <? 0xE0 then
      match r0 with
      | [] => malformed errors (Returns [])
      | b1 :: r1 =>
        let c1 := Byte.to_N b1 in
        if continuation c1
        then cons (N.shiftl (N.land c0 0x1F) 6 + N.land c1 0x3F)
               <$> decode errors r1
        else malformed errors (decode errors r0)
      end
    else if c0 <? 0xF0 then
      match r0 with
      | [] => malformed errors (Returns [])
      | b1 :: r1 =>
        let c1 := Byte.to_N b1 in
        if negb (continuation c1)
           || (if c1 <? 0xA0 then c0 =? 0xE0 else c0 =? 0xED)
        then malformed errors (decode errors r0)
        else
          match r1 with
          | [] => malformed errors (Returns [])
          | b2 :: r2 =>
            let c2 := Byte.to_N b2 in
            if continuation c2
            then cons (N.shiftl (N.land c0 0x0F) 12
                       + N.shiftl (N.land c1 0x3F) 6 + N.land c2 0x3F)
                   <$> decode errors r2
            else malformed errors (decode errors r1)
          end
      end
    else if c0 <? 0xF5 then
      match r0 with
      | [] => malformed errors (Returns [])
      | b1 :: r1 =>
        let c1 := Byte.to_N b1 in
        if negb (continuation c1)
           || (if c1 <? 0x90 then c0 =? 0xF0 else c0 =? 0xF4)
        then malformed errors (decode errors r0)
        else
          match r1 with
          | [] => malformed errors (Returns [])
          | b2 :: r2 =>
            let c2 := Byte.to_N b2 in
            if negb (continuation c2)
            then malformed errors (decode errors r1)
            else
              match r2 with
              | [] => malformed errors (Returns [])
              | b3 :: r3 =>
                let c3 := Byte.to_N b3 in
                if continuation c3
                then cons (N.shiftl (N.land c0 0x07) 18
                           + N.shiftl (N.land c1 0x3F) 12
                           + N.shiftl (N.land c2 0x3F) 6 + N.land c3 0x3F)
                       <$> decode errors r3
                else malformed errors (decode errors r2)
              end
          end
      end
    else malformed errors (decode errors r0)
  end.

Definition surrogate (c : N) : bool := (0xD800 <=? c) && (c <=? 0xDFFF).

(** The bytes of one code point; a surrogate has none. *)
Definition encode_char (c : N) : outcome bytes :=
  if c <? 0x80 then Returns [byte_of_N c]
  else if c <? 0x800 then
    Returns [byte_of_N (0xC0 + N.shiftr c 6);
             byte_of_N (0x80 + N.land c 0x3F)]
  else if surrogate c then Raises UnicodeEncodeError
  else if c <? 0x10000 then
    Returns [byte_of_N (0xE0 + N.shiftr c 12);
             byte_of_N (0x80 + N.land (N.shiftr c 6) 0x3F);
             byte_of_N (0x80 + N.land c 0x3F)]
  else
    Returns [byte_of_N (0xF0 + N.shiftr c 18);
             byte_of_N (0x80 + N.land (N.shiftr c 12) 0x3F);
             byte_of_N (0x80 + N.land (N.shiftr c 6) 0x3F);
             byte_of_N (0x80 + N.land c 0x3F)].

Fixpoint encode (s : str) : outcome bytes :=
  match s with
  | [] => Returns []
  | c :: s' =>
    bs ← encode_char c;
    rest ← encode s';
    Returns (bs ++ rest)
  end.

End utf8.

(** ** [os.path] (POSIX) *)

Module posixpath.

(** [p[p.rfind('/') + 1:]]: what follows the last slash. *)
Fixpoint basename (p : str) : str :=
  match p with
  | [] => []
  | c :: p' =>
    if existsb (N.eqb 47) p' then basename p'
    else if c =? 47 then p' else p
  end.

Fixpoint split_sep (p : str) : list str :=
  match p with
  | [] => [[]]
  | c :: p' =>
    if c =? 47 then [] :: split_sep p'
    else match split_sep p' with
         | [] => [[c]]
         | comp :: comps => (c :: comp) :: comps
         end
  end.

Definition str_eqb (a b : str) : bool := bool_decide (a = b).

Definition join_sep (comps : list str) : str :=
  match comps with
  | [] => []
  | c :: cs => c ++ concat ((λ x, 47 :: x) <$> cs)
  end.

(** The loop of [normpath] over the components; [new_comps] is kept in
    reverse, its head being the last component appended. *)
Fixpoint normpath_comps (initial_slashes : nat) (comps new_comps : list str)
  : list str :=
  match comps with
  | [] => rev new_comps
  | comp :: comps' =>
    if str_eqb comp [] || str_eqb comp (py ".")
    then normpath_comps initial_slashes comps' new_comps
    else if negb (str_eqb comp (py ".."))
            || ((initial_slashes =? 0)%nat && bool_decide (new_comps = []))
            || match new_comps with
               | last :: _ => str_eqb last (py "..")
               | [] => false
               end
    then normpath_comps initial_slashes comps' (comp :: new_comps)
    else normpath_comps initial_slashes comps' (tail new_comps)
  end.

Definition normpath (path : str) : str :=
  match path with
  | [] => py "."
  | _ =>
    let initial_slashes :=
      match path with
      | 47 :: 47 :: 47 :: _ => 1%nat
      | 47 :: 47 :: _ => 2%nat
      | 47 :: _ => 1%nat
      | _ => 0%nat
      end in
    let path' :=
      replicate initial_slashes 47
      ++ join_sep (normpath_comps initial_slashes (split_sep path) []) in
    match path' with
    | [] => py "."
    | _ => path'
    end
  end.

End posixpath.

(** ** The file system and [zipfile]

    Source files and archives are kept apart: [files] is what [os.stat]
    and [open] see, [disk] holds each archive as [zipfile] reads it back,
    its members in the order of the central directory and its comment.
    File names, comments and timestamps are taken to be within the limits
    of the ZIP format, and members are stored uncompressed, as [ZipInfo]
    has it by default. *)

Inductive node : Type :=
| File (content : bytes)
| Directory.

Module ZipInfo.

Record t : Type := mk {
  filename : str;
  file_size : nat;
  compress_size : nat;
  comment : bytes
}.

(** [ZipInfo.__init__]: the name ends at its first null character. *)
Fixpoint until_null (name : str) : str :=
  match name with
  | [] => []
  | c :: name' => if c =? 0 then [] else c :: until_null name'
  end.

Definition init (name : str) : t :=
  {| filename := until_null name; file_size := 0; compress_size := 0;
     comment := [] |}.

(** [while arcname[0] in (os.sep, os.altsep): arcname = arcname[1:]] *)
Fixpoint strip_leading_sep (arcname : str) : outcome str :=
  match arcname with
  | [] => Raises IndexError
  | c :: arcname' =>
    if c =? 47 then strip_leading_sep arcname' else Returns arcname
  end.

(** [ZipInfo.from_file(filename, arcname)] *)
Definition from_file (files : gmap str node) (name : str)
    (arcname : option str) : outcome t :=
  match files !! name with
  | None => Raises (FileNotFoundError name)
  | Some nd =>
    let arcname := default name arcname in
    arcname ← strip_leading_sep (posixpath.normpath arcname);
    match nd with
    | Directory => Returns (init (arcname ++ [47]))
    | File content =>
      let zinfo := init arcname in
      Returns {| filename := filename zinfo; file_size := length content;
                 compress_size := compress_size zinfo;
                 comment := comment zinfo |}
    end
  end.

End ZipInfo.

(** An archive on disk, as a reader finds it. *)
Record archive_file : Type := {
  members : list ZipInfo.t;
  archive_comment : bytes
}.

Module ZipFile.

Record t : Type := mk {
  filename : str;
  mode : str;
  filelist : list ZipInfo.t;
  NameToInfo : gmap str ZipInfo.t;
  comment : bytes
}.

Definition ZIP_MAX_COMMENT : nat := N.to_nat 65535.

(** [NameToInfo] as it is built along [filelist]: each member is entered
    under its name, over any earlier member of that name. *)
Definition index (infos : list ZipInfo.t) : gmap str ZipInfo.t :=
  foldl (λ m x, <[ZipInfo.filename x := x]> m) ∅ infos.

(** The two views of the members agree. *)
Definition indexed (self : t) : Prop :=
  NameToInfo self = index (filelist self).

(** [ZipFile(file, mode)]. Reading walks the central directory, so that
    of two members of one name [NameToInfo] keeps the later; writing
    truncates the file, which is no archive until it is closed. *)
Definition init (disk : gmap str archive_file) (file mode : str)
  : outcome t * gmap str archive_file :=
  if bool_decide (mode = py "r") then
    match disk !! file with
    | None => (Raises (FileNotFoundError file), disk)
    | Some image =>
      (Returns {| filename := file; mode := mode;
                  filelist := members image;
                  NameToInfo := index (members image);
                  comment := archive_comment image |}, disk)
    end
  else if bool_decide (mode = py "w") then
    (Returns {| filename := file; mode := mode; filelist := [];
                NameToInfo := ∅; comment := [] |}, delete file disk)
  else (Raises (ValueError "ZipFile requires mode 'r', 'w', 'x', or 'a'"),
        disk).

(** [ZipFile.close()] *)
Definition close (disk : gmap str archive_file) (self : t)
  : gmap str archive_file :=
  if bool_decide (mode self = py "w") then
    <[filename self := {| members := filelist self;
                          archive_comment := comment self |}]> disk
  else disk.

(** [ZipFile.writestr(zinfo, data)]: the member is appended to [filelist]
    and entered in [NameToInfo] under its name; a name already there only
    draws a warning. *)
Definition writestr (self : t) (zinfo : ZipInfo.t) (data : bytes)
  : outcome t :=
  if bool_decide (mode self = py "w") then
    let zinfo := {| ZipInfo.filename := ZipInfo.filename zinfo;
                    ZipInfo.file_size := length data;
                    ZipInfo.compress_size := length data;
                    ZipInfo.comment := ZipInfo.comment zinfo |} in
    Returns {| filename := filename self; mode := mode self;
               filelist := filelist self ++ [zinfo];
               NameToInfo := <[ZipInfo.filename zinfo := zinfo]>
                               (NameToInfo self);
               comment := comment self |}
  else Raises (ValueError "write() requires mode 'w', 'x', or 'a'").

(** [ZipFile.getinfo(name)] *)
Definition getinfo (self : t) (name : str) : outcome ZipInfo.t :=
  match NameToInfo self !! name with
  | Some info => Returns info
  | None => Raises (KeyError name)
  end.

(** The setter of [ZipFile.comment]: a comment too long for the format is
    cut, with a warning. *)
Definition set_comment (self : t) (c : bytes) : t :=
  {| filename := filename self; mode := mode self;
     filelist := filelist self; NameToInfo := NameToInfo self;
     comment := take ZIP_MAX_COMMENT c |}.

End ZipFile.

(** [open(path, 'rb').read()] *)
Definition read_binary (files : gmap str node) (path : str) : outcome bytes :=
  match files !! path with
  | None => Raises (FileNotFoundError path)
  | Some Directory => Raises (IsADirectoryError path)
  | Some (File content) => Returns content
  end.

(** The result of scanning a prefix of the input: the value and what
    follows it, or a [JSONDecodeError], or the step counter ran out. *)
Inductive parse (A : Type) : Type :=
| Parsed (a : A) (rest : str)
| Failed
| Starved.
Arguments Parsed {A} a rest.
Arguments Failed {A}.
Arguments Starved {A}.

Definition parse_map {A B : Type} (f : A → B) (p : parse A) : parse B :=
  match p with
  | Parsed a rest => Parsed (f a) rest
  | Failed => Failed
  | Starved => Starved
  end.

(** ** Python values *)

(** Binary floating point is not part of the embedding. The three
    operations the program applies to a [float] are the fields of this
    class, with nothing assumed about them: every result below holds for
    whatever implements them. *)
Class PyFloat : Type := {
  pyfloat : Type;
  (** [float(text)], for a JSON number literal and for the constants
      [NaN], [Infinity] and [-Infinity] *)
  float_of_str : str → pyfloat;
  (** [floatstr] of the JSON encoder: [float.__repr__], or the name of
      the constant *)
  floatstr : pyfloat → str;
  (** [bool(x)] *)
  float_bool : pyfloat → bool
}.

Section Zipper.
Context `{PyFloat}.

(** The metadata values: the JSON tree ([None], [bool], [int], [float],
    [str], [list], [dict] with [str] keys, in insertion order) and objects
    of any other class, known by their identity only. *)
#[warnings="-register-all"]
Inductive pyval : Type :=
| PNone
| PBool (b : bool)
| PInt (z : Z)
| PFloat (x : pyfloat)
| PStr (s : str)
| PList (items : list pyval)
| PDict (items : list (str * pyval))
| PObject (id : nat).

(** [bool(v)], the test of [if v:]. *)
Definition truthy (v : pyval) : bool :=
  match v with
  | PNone => false
  | PBool b => b
  | PInt z => negb (z =? 0)%Z
  | PFloat x => float_bool x
  | PStr s => negb (bool_decide (s = []))
  | PList items => negb (bool_decide (length items = 0%nat))
  | PDict items => negb (bool_decide (length items = 0%nat))
  | PObject _ => true
  end.

(** [dict(pairs)]: a key seen again keeps its place and takes the new
    value. *)
Fixpoint dict_setitem (d : list (str * pyval)) (k : str) (v : pyval)
  : list (str * pyval) :=
  match d with
  | [] => [(k, v)]
  | (k', v') :: d' =>
    if bool_decide (k' = k) then (k, v) :: d'
    else (k', v') :: dict_setitem d' k v
  end.

Definition dict_of_pairs (pairs : list (str * pyval)) : list (str * pyval) :=
  foldl (λ d kv, dict_setitem d kv.1 kv.2) [] pairs.

(** ** [json.dumps(o, ensure_ascii=True)] *)

Fixpoint uint_chars (d : Decimal.uint) : str :=
  match d with
  | Decimal.Nil => []
  | Decimal.D0 d' => 48 :: uint_chars d'
  | Decimal.D1 d' => 49 :: uint_chars d'
  | Decimal.D2 d' => 50 :: uint_chars d'
  | Decimal.D3 d' => 51 :: uint_chars d'
  | Decimal.D4 d' => 52 :: uint_chars d'
  | Decimal.D5 d' => 53 :: uint_chars d'
  | Decimal.D6 d' => 54 :: uint_chars d'
  | Decimal.D7 d' => 55 :: uint_chars d'
  | Decimal.D8 d' => 56 :: uint_chars d'
  | Decimal.D9 d' => 57 :: uint_chars d'
  end.

(** [int.__repr__]: decimal digits, after a minus sign when negative. *)
Definition int_repr (z : Z) : str :=
  if (z <? 0)%Z then 45 :: uint_chars (N.to_uint (Z.to_N (- z)))
  else uint_chars (N.to_uint (Z.to_N z)).

Definition hexdigit (k : N) : N := if k <? 10 then 48 + k else 87 + k.

(** ['{0:04x}'.format(n)], for [n < 0x10000]. *)
Definition hex4 (n : N) : str :=
  [hexdigit (n / 4096 mod 16); hexdigit (n / 256 mod 16);
   hexdigit (n / 16 mod 16); hexdigit (n mod 16)].

(** The replacement of one character by [ESCAPE_ASCII]: the short escapes
    of [ESCAPE_DCT], printable ASCII as it is, and [\uXXXX] for the rest,
    as a surrogate pair above the basic plane. *)
Definition escape_ascii (c : N) : str :=
  if c =? 92 then [92; 92]
  else if c =? 34 then [92; 34]
  else if c =? 8 then [92; 98]
  else if c =? 12 then [92; 102]
  else if c =? 10 then [92; 110]
  else if c =? 13 then [92; 114]
  else if c =? 9 then [92; 116]
  else if (32 <=? c) && (c <=? 126) then [c]
  else if c <? 0x10000 then 92 :: 117 :: hex4 c
  else
    let n := c - 0x10000 in
    let s1 := N.lor 0xD800 (N.land (N.shiftr n 10) 0x3FF) in
    let s2 := N.lor 0xDC00 (N.land n 0x3FF) in
    92 :: 117 :: hex4 s1 ++ 92 :: 117 :: hex4 s2.

Definition encode_basestring_ascii (s : str) : str :=
  34 :: concat (escape_ascii <$> s) ++ [34].

(** [sep.join(chunks)] *)
Fixpoint join (sep : str) (chunks : list str) : str :=
  match chunks with
  | [] => []
  | [c] => c
  | c :: cs => c ++ sep ++ join sep cs
  end.

(** The chunks of the members of a container in order, up to the first
    that raises. *)
Definition each {A B : Type} (f : A → outcome B)
  : list A → outcome (list B) :=
  fix go (l : list A) : outcome (list B) :=
    match l with
    | [] => Returns []
    | x :: l' => c ← f x; cs ← go l'; Returns (c :: cs)
    end.

(** The encoder with its default separators [', '] and [': ']. An object
    of a class it does not know has no JSON form: [TypeError]. *)
Fixpoint json_dumps (o : pyval) : outcome str :=
  match o with
  | PNone => Returns (py "null")
  | PBool true => Returns (py "true")
  | PBool false => Returns (py "false")
  | PInt z => Returns (int_repr z)
  | PFloat x => Returns (floatstr x)
  | PStr s => Returns (encode_basestring_ascii s)
  | PList items =>
    chunks ← each json_dumps items;
    Returns (91 :: join (py ", ") chunks ++ [93])
  | PDict items =>
    chunks ← each (λ '(k, v), c ← json_dumps v;
                     Returns (encode_basestring_ascii k ++ py ": " ++ c))
                  items;
    Returns (123 :: join (py ", ") chunks ++ [125])
  | PObject _ => Raises TypeError
  end.

(** ** [json.loads(s)]

    The scanner works on what is left of the input. Its recursion is
    bounded by a counter that [json_loads] sets above the length of the
    input, which it never exhausts ([scan_once_fuel] below); the recursion
    limit of the interpreter is not modelled. *)

Definition whitespace (c : N) : bool :=
  (c =? 32) || (c =? 9) || (c =? 10) || (c =? 13).

Fixpoint skip_ws (s : str) : str :=
  match s with
  | [] => []
  | c :: r => if whitespace c then skip_ws r else s
  end.

(** [s.startswith(p)], with what follows the prefix. *)
Fixpoint strip_prefix (p s : str) : option str :=
  match p, s with
  | [], _ => Some s
  | a :: p', b :: s' => if a =? b then strip_prefix p' s' else None
  | _ :: _, [] => None
  end.

Definition hexval (c : N) : option N :=
  if (48 <=? c) && (c <=? 57) then Some (c - 48)
  else if (97 <=? c) && (c <=? 102) then Some (c - 87)
  else if (65 <=? c) && (c <=? 70) then Some (c - 55)
  else None.

(** [_decode_uXXXX]: four hexadecimal digits. *)
Definition decode_uXXXX (h1 h2 h3 h4 : N) : option N :=
  a ← hexval h1; b ← hexval h2; c ← hexval h3; d ← hexval h4;
  Some (((a * 16 + b) * 16 + c) * 16 + d).

(** The table [BACKSLASH]. *)
Definition backslash (esc : N) : option N :=
  if esc =? 34 then Some 34
  else if esc =? 92 then Some 92
  else if esc =? 47 then Some 47
  else if esc =? 98 then Some 8
  else if esc =? 102 then Some 12
  else if esc =? 110 then Some 10
  else if esc =? 114 then Some 13
  else if esc =? 116 then Some 9
  else None.

Definition high_surrogate (c : N) : bool := (0xD800 <=? c) && (c <=? 0xDBFF).
Definition low_surrogate (c : N) : bool := (0xDC00 <=? c) && (c <=? 0xDFFF).

(** [scanstring(s, end, strict=True)], from after the opening quote. A
    [\uXXXX] that is a high surrogate joins the low surrogate escaped
    right after it, if there is one. *)
Fixpoint scanstring (s : str) : parse str :=
  match s with
  | [] => Failed
  | c :: r =>
    if c =? 34 then Parsed [] r
    else if c =? 92 then
      match r with
      | [] => Failed
      | esc :: r1 =>
        if esc =? 117 then
          match r1 with
          | h1 :: h2 :: h3 :: h4 :: r5 =>
            match decode_uXXXX h1 h2 h3 h4 with
            | None => Failed
            | Some uni =>
              match r5 with
              | b :: u :: r7 =>
                if high_surrogate uni && (b =? 92) && (u =? 117) then
                  match r7 with
                  | g1 :: g2 :: g3 :: g4 :: r11 =>
                    match decode_uXXXX g1 g2 g3 g4 with
                    | None => Failed
                    | Some uni2 =>
                      if low_surrogate uni2
                      then parse_map
                             (cons (0x10000
                                    + N.lor (N.shiftl (uni - 0xD800) 10)
                                            (uni2 - 0xDC00)))
                             (scanstring r11)
                      else parse_map (cons uni) (scanstring r5)
                    end
                  | _ => Failed
                  end
                else parse_map (cons uni) (scanstring r5)
              | _ => parse_map (cons uni) (scanstring r5)
              end
            end
          | _ => Failed
          end
        else
          match backslash esc with
          | None => Failed
          | Some char => parse_map (cons char) (scanstring r1)
          end
      end
    else if c <? 32 then Failed
    else parse_map (cons c) (scanstring r)
  end.

Definition digit (c : N) : bool := (48 <=? c) && (c <=? 57).

Fixpoint span_digits (s : str) : str * str :=
  match s with
  | [] => ([], [])
  | c :: r =>
    if digit c then let '(ds, rest) := span_digits r in (c :: ds, rest)
    else ([], s)
  end.

(** The three groups of [NUMBER_RE]: an integer (an optional minus sign,
    then a zero alone or digits not starting with a zero), an optional
    fraction (a point and digits) and an optional exponent (e or E, an
    optional sign and digits). *)
Definition match_integer (s : str) : option (str * str) :=
  let '(sign, s1) :=
    match s with
    | c :: r => if c =? 45 then ([45], r) else ([], s)
    | [] => ([], s)
    end in
  match s1 with
  | [] => None
  | c :: r =>
    if c =? 48 then Some (sign ++ [48], r)
    else if digit c
    then let '(ds, rest) := span_digits r in Some (sign ++ c :: ds, rest)
    else None
  end.

Definition match_frac (s : str) : str * str :=
  match s with
  | c :: r =>
    if c =? 46 then
      match span_digits r with
      | ([], _) => ([], s)
      | (ds, rest) => (46 :: ds, rest)
      end
    else ([], s)
  | [] => ([], s)
  end.

Definition match_exp (s : str) : str * str :=
  match s with
  | e :: r =>
    if (e =? 101) || (e =? 69) then
      let '(sign, r1) :=
        match r with
        | c :: r' => if (c =? 45) || (c =? 43) then ([c], r') else ([], r)
        | [] => ([], r)
        end in
      match span_digits r1 with
      | ([], _) => ([], s)
      | (ds, rest) => (e :: sign ++ ds, rest)
      end
    else ([], s)
  | [] => ([], s)
  end.

Definition digit_cons (k : N) (d : Decimal.uint) : Decimal.uint :=
  if k =? 0 then Decimal.D0 d
  else if k =? 1 then Decimal.D1 d
  else if k =? 2 then Decimal.D2 d
  else if k =? 3 then Decimal.D3 d
  else if k =? 4 then Decimal.D4 d
  else if k =? 5 then Decimal.D5 d
  else if k =? 6 then Decimal.D6 d
  else if k =? 7 then Decimal.D7 d
  else if k =? 8 then Decimal.D8 d
  else Decimal.D9 d.

Fixpoint uint_of_digits (ds : str) : Decimal.uint :=
  match ds with
  | [] => Decimal.Nil
  | c :: r => digit_cons (c - 48) (uint_of_digits r)
  end.

(** [int(text)], for the text of the first group of [NUMBER_RE]. *)
Definition int_of_str (text : str) : Z :=
  match text with
  | c :: r =>
    if c =? 45 then (- Z.of_N (N.of_uint (uint_of_digits r)))%Z
    else Z.of_N (N.of_uint (uint_of_digits text))
  | [] => 0%Z
  end.

Definition match_number (s : str) : parse pyval :=
  match match_integer s with
  | None => Failed
  | Some (integer, r) =>
    let '(frac, r1) := match_frac r in
    let '(exp, r2) := match_exp r1 in
    match frac ++ exp with
    | [] => Parsed (PInt (int_of_str integer)) r2
    | _ => Parsed (PFloat (float_of_str (integer ++ frac ++ exp))) r2
    end
  end.

(** The loop of [JSONArray], from the first value on. *)
Fixpoint array_values (scan : str → parse pyval) (n : nat) (s : str)
  : parse (list pyval) :=
  match n with
  | O => Starved
  | S n' =>
    match scan s with
    | Parsed value r =>
      match skip_ws r with
      | c :: r' =>
        if c =? 93 then Parsed [value] r'
        else if c =? 44
        then parse_map (cons value) (array_values scan n' (skip_ws r'))
        else Failed
      | [] => Failed
      end
    | Failed => Failed
    | Starved => Starved
    end
  end.

Definition JSONArray (scan : str → parse pyval) (n : nat) (s : str)
  : parse pyval :=
  match skip_ws s with
  | c :: r =>
    if c =? 93 then Parsed (PList []) r
    else parse_map PList (array_values scan n (skip_ws s))
  | [] => Failed
  end.

(** The loop of [JSONObject], from after the opening quote of a key. *)
Fixpoint object_pairs (scan : str → parse pyval) (n : nat) (s : str)
  : parse (list (str * pyval)) :=
  match n with
  | O => Starved
  | S n' =>
    match scanstring s with
    | Parsed key r =>
      match skip_ws r with
      | c :: r1 =>
        if c =? 58 then
          match scan (skip_ws r1) with
          | Parsed value r2 =>
            match skip_ws r2 with
            | d :: r3 =>
              if d =? 125 then Parsed [(key, value)] r3
              else if d =? 44 then
                match skip_ws r3 with
                | q :: r4 =>
                  if q =? 34
                  then parse_map (cons (key, value))
                                 (object_pairs scan n' r4)
                  else Failed
                | [] => Failed
                end
              else Failed
            | [] => Failed
            end
          | Failed => Failed
          | Starved => Starved
          end
        else Failed
      | [] => Failed
      end
    | Failed => Failed
    | Starved => Starved
    end
  end.

Definition JSONObject (scan : str → parse pyval) (n : nat) (s : str)
  : parse pyval :=
  match skip_ws s with
  | c :: r =>
    if c =? 34
    then parse_map (λ pairs, PDict (dict_of_pairs pairs))
                   (object_pairs scan n r)
    else if c =? 125 then Parsed (PDict []) r
    else Failed
  | [] => Failed
  end.

Definition keyword (name : str) (value : pyval) (s : str)
    (otherwise : parse pyval) : parse pyval :=
  match strip_prefix name s with
  | Some rest => Parsed value rest
  | None => otherwise
  end.

(** [scan_once(string, idx)] *)
Fixpoint scan_once (fuel : nat) (s : str) : parse pyval :=
  match fuel with
  | O => Starved
  | S fuel' =>
    match s with
    | [] => Failed
    | nextchar :: r =>
      if nextchar =? 34 then parse_map PStr (scanstring r)
      else if nextchar =? 123 then JSONObject (scan_once fuel') fuel' r
      else if nextchar =? 91 then JSONArray (scan_once fuel') fuel' r
      else
        keyword (py "null") PNone s (
        keyword (py "true") (PBool true) s (
        keyword (py "false") (PBool false) s (
        match match_number s with
        | Parsed number rest => Parsed number rest
        | _ =>
          keyword (py "NaN") (PFloat (float_of_str (py "NaN"))) s (
          keyword (py "Infinity")
                  (PFloat (float_of_str (py "Infinity"))) s (
          keyword (py "-Infinity")
                  (PFloat (float_of_str (py "-Infinity"))) s Failed))
        end)))
    end
  end.

(** [json.loads(s)] for a [str]: no byte order mark, one value between
    optional whitespace, and nothing after it. *)
Definition json_loads (s : str) : outcome pyval :=
  if match s with c :: _ => c =? 0xFEFF | [] => false end
  then Raises JSONDecodeError
  else
    match scan_once (S (length s)) (skip_ws s) with
    | Parsed obj rest =>
      match skip_ws rest with
      | [] => Returns obj
      | _ :: _ => Raises JSONDecodeError
      end
    | Failed | Starved => Raises JSONDecodeError
    end.

(** ** The values of the JSON data model

    What the design calls a JSON-serializable value: null, booleans,
    integers, text, sequences, and mappings from text to values. Text is a
    sequence of Unicode scalar values, and the keys of a mapping are
    distinct, as in any [dict]. *)

Definition unicode_scalar (c : N) : bool :=
  (c <? 0x110000) && negb (utf8.surrogate c).

Definition unicode_text (s : str) : bool := forallb unicode_scalar s.






(** ** [zipper/core.py] *)

(** The attributes of a [ZipArchive]. *)
Record ZipArchive : Type := {
  filename : str;
  mode : str;
  archive : option ZipFile.t
}.

(** A method runs on [self] and leaves it as it is when it returns or
    raises. *)
Definition method (A : Type) : Type := ZipArchive → outcome A * ZipArchive.

#[global] Instance method_ret : MRet method := λ A a self, (Returns a, self).
#[global] Instance method_bind : MBind method := λ A B f m self,
  match m self with
  | (Returns a, self') => f a self'
  | (Raises e, self') => (Raises e, self')
  end.

Definition raise {A : Type} (e : exn) : method A := λ self, (Raises e, self).

(** A call that does not touch [self]. *)
Definition call {A : Type} (o : outcome A) : method A := λ self, (o, self).

Definition get_self : method ZipArchive := λ self, (Returns self, self).

(** [self.archive], an attribute of which is about to be taken. *)
Definition self_archive : method ZipFile.t := λ self,
  match archive self with
  | Some zf => (Returns zf, self)
  | None => (Raises AttributeError, self)
  end.

(** The archive object is shared: what a call does to it shows in
    [self.archive]. *)
Definition set_archive (zf : ZipFile.t) : method unit := λ self,
  (Returns (), {| filename := filename self; mode := mode self;
                  archive := Some zf |}).

Definition requires_open_archive {A : Type} (func : method A) : method A :=
  λ self,
    match archive self with
    | None =>
      (Raises (RuntimeError "Archive not opened. Use with context manager."),
       self)
    | Some _ => func self
    end.

(** [ZipArchive(filename, mode)] *)
Definition __init__ (filename mode : str) : outcome ZipArchive :=
  if negb (bool_decide (mode = py "w") || bool_decide (mode = py "r"))
  then Raises (ValueError "Mode must be 'w' for write or 'r' for read")
  else Returns {| filename := filename; mode := mode; archive := None |}.

Definition __enter__ (disk : gmap str archive_file) (self : ZipArchive)
  : outcome ZipArchive * gmap str archive_file :=
  match ZipFile.init disk (filename self) (mode self) with
  | (Returns zf, disk') =>
    (Returns {| filename := filename self; mode := mode self;
                archive := Some zf |}, disk')
  | (Raises e, disk') => (Raises e, disk')
  end.

Definition __exit__ (disk : gmap str archive_file) (self : ZipArchive)
  : gmap str archive_file :=
  match archive self with
  | Some zf => ZipFile.close disk zf
  | None => disk
  end.

(** [with ZipArchive(filename, mode) as archive:], up to the body. *)
Definition open_archive (disk : gmap str archive_file) (filename mode : str)
  : outcome ZipArchive * gmap str archive_file :=
  match __init__ filename mode with
  | Returns self => __enter__ disk self
  | Raises e => (Raises e, disk)
  end.

Definition _encode_metadata (metadata : pyval) : outcome bytes :=
  text ← json_dumps metadata;
  utf8.encode text.

Definition _decode_metadata (comment : bytes) : outcome pyval :=
  if bool_decide (comment = []) then Returns (PDict [])
  else
    match utf8.decode utf8.strict comment ≫= json_loads with
    | Returns value => Returns value
    | Raises JSONDecodeError | Raises UnicodeDecodeError =>
      text ← utf8.decode utf8.replace comment;
      Returns (PDict [(py "comment", PStr text)])
    | Raises e => Raises e
    end.

(** [arcname or os.path.basename(filepath)] *)
Definition name_in_archive (filepath : str) (arcname : option str) : str :=
  match arcname with
  | Some (c :: name) => c :: name
  | Some [] | None => posixpath.basename filepath
  end.

Definition with_comment (zinfo : ZipInfo.t) (c : bytes) : ZipInfo.t :=
  {| ZipInfo.filename := ZipInfo.filename zinfo;
     ZipInfo.file_size := ZipInfo.file_size zinfo;
     ZipInfo.compress_size := ZipInfo.compress_size zinfo;
     ZipInfo.comment := c |}.

(** [add_file(filepath, metadata=None, arcname=None)] *)
Definition add_file (files : gmap str node) (filepath : str)
    (metadata : pyval) (arcname : option str) : method unit :=
  requires_open_archive (
    self ← get_self;
    if negb (bool_decide (mode self = py "w"))
    then raise (RuntimeError
                  "Archive must be opened in write mode to add files")
    else if negb (bool_decide (is_Some (files !! filepath)))
    then raise (FileNotFoundError filepath)
    else
      zinfo ← call (ZipInfo.from_file files filepath
                      (Some (name_in_archive filepath arcname)));
      zinfo ← (if truthy metadata
               then call (with_comment zinfo <$> _encode_metadata metadata)
               else mret zinfo);
      data ← call (read_binary files filepath);
      zf ← self_archive;
      zf ← call (ZipFile.writestr zf zinfo data);
      set_archive zf).

(** [set_archive_metadata(metadata)] *)
Definition set_archive_metadata (metadata : pyval) : method unit :=
  requires_open_archive (
    self ← get_self;
    if negb (bool_decide (mode self = py "w"))
    then raise (RuntimeError
                  "Archive must be opened in write mode to set metadata")
    else
      c ← call (_encode_metadata metadata);
      zf ← self_archive;
      set_archive (ZipFile.set_comment zf c)).

(** [get_archive_metadata()] *)
Definition get_archive_metadata : method pyval :=
  requires_open_archive (
    zf ← self_archive;
    call (_decode_metadata (ZipFile.comment zf))).

(** [get_file_metadata(filename)] *)
Definition get_file_metadata (name : str) : method pyval :=
  requires_open_archive (
    let name := posixpath.basename name in
    zf ← self_archive;
    match info ← ZipFile.getinfo zf name;
          _decode_metadata (ZipInfo.comment info) with
    | Raises (KeyError _) => raise (KeyError name)
    | result => call result
    end).

Definition contents_item (info : ZipInfo.t) (metadata : pyval) : pyval :=
  PDict [(py "filename", PStr (ZipInfo.filename info));
         (py "size", PInt (Z.of_nat (ZipInfo.file_size info)));
         (py "compressed_size",
          PInt (Z.of_nat (ZipInfo.compress_size info)));
         (py "metadata", metadata)].

(** The loop of [list_contents] over [filelist]. *)
Fixpoint contents_of (infos : list ZipInfo.t) : outcome (list pyval) :=
  match infos with
  | [] => Returns []
  | info :: infos' =>
    metadata ← _decode_metadata (ZipInfo.comment info);
    rest ← contents_of infos';
    Returns (contents_item info metadata :: rest)
  end.

(** [list_contents()] *)
Definition list_contents : method (list pyval) :=
  requires_open_archive (
    zf ← self_archive;
    call (contents_of (ZipFile.filelist zf))).

(** ** Sessions

    The session of [test_multiple_files_same_name], with two files of
    different directories added under one name, and the end-to-end session
    of the design: one file with metadata, then the archive metadata. *)

Definition test_files : gmap str node :=
  {[ py "/tmp/dir1/test.txt" := File (pyb "content1");
     py "/tmp/dir2/test.txt" := File (pyb "content22");
     py "/tmp/doc.txt" := File (pyb "hello");
     py "/tmp/dir1" := Directory ]}.

Definition tagged (key value : string) : pyval :=
  PDict [(py key, PStr (py value))].

Definition same_name_session : method (list pyval) :=
  _ ← add_file test_files (py "/tmp/dir1/test.txt") (tagged "source" "dir1")
        (Some (py "x.txt"));
  _ ← add_file test_files (py "/tmp/dir2/test.txt") (tagged "source" "dir2")
        (Some (py "x.txt"));
  list_contents.

Definition end_to_end_session : method unit :=
  _ ← add_file test_files (py "/tmp/doc.txt") (tagged "type" "text") None;
  set_archive_metadata (tagged "project" "demo").

(** An item of [list_contents] for a member named ["x.txt"]. *)
Definition x_txt_item (size : Z) (dir : string) : pyval :=
  PDict [(py "filename", PStr (py "x.txt")); (py "size", PInt size);
         (py "compressed_size", PInt size);
         (py "metadata", tagged "source" dir)].

(** Metadata with every kind of JSON value but a float; the text has a
    character outside the basic plane, a line feed and a quote. *)
Definition sample_metadata : pyval :=
  PDict [(py "type", PStr (py "text"));
         (py "tags", PList [PInt 1; PInt (-20); PNone; PBool true;
                            PStr [233; 0x1F600; 10; 34]]);
         (py "nested", PDict [(py "empty", PList [])])].

(** The body of a [with] block on the archive at [file]: the outcome of
    the body and the disk after the block. *)
Definition with_archive {A : Type} (disk : gmap str archive_file)
    (file mode : str) (body : method A)
  : outcome A * gmap str archive_file :=
  match open_archive disk file mode with
  | (Returns self, disk') =>
    let '(result, self') := body self in (result, __exit__ disk' self')
  | (Raises e, disk') => (Raises e, disk')
  end.

(** ** What an open handle keeps *)

(** The handle and its container agree on the file and on the mode, and
    the index of the container is in step with its members. *)
Definition handle_ok (self : ZipArchive) : Prop :=
  ∃ zf, archive self = Some zf
        ∧ ZipFile.filename zf = filename self
        ∧ ZipFile.mode zf = mode self
        ∧ ZipFile.indexed zf.



(** ** [zipper/cli.py]: the archive that [create] builds

    [create] from the opening of the archive on, with its arguments as
    parsed: [metadata_for file] is the metadata that goes with a file (the
    default of the command line, or what the prompts collected for it).
    The messages it prints are left out. *)

(** The loop over the files: a file that is not found is reported and
    passed over, any other exception ends the loop. *)
Fixpoint add_files (files : gmap str node) (metadata_for : str → pyval)
    (paths : list str) : method unit :=
  match paths with
  | [] => mret ()
  | file :: paths' => λ self,
    match add_file files file (metadata_for file) None self with
    | (Returns _, self') | (Raises (FileNotFoundError _), self') =>
      add_files files metadata_for paths' self'
    | (Raises e, self') => (Raises e, self')
    end
  end.


(** The disk after the end-to-end session on ["a.zip"]. *)
Definition demo_disk : gmap str archive_file :=
  (with_archive ∅ (py "a.zip") (py "w") end_to_end_session).2.

End Zipper.

(** An implementation of [PyFloat] that keeps a float as the text it was
    read from, to evaluate the definitions on concrete inputs. *)
Definition text_float : PyFloat :=
  {| pyfloat := str; float_of_str := λ text, text; floatstr := λ x, x;
     float_bool := λ _, true |}.

(** * Properties *)

Section Properties.
Context `{PyFloat}.

(** *** Hexadecimal escapes *)





(** *** Surrogate pairs *)




(** *** Strings *)







(** *** Integers *)














(** *** Induction on values *)


(** *** The scanner on the text of the encoder *)

Lemma scan_once_unfold (fuel : nat) (nextchar : N) (r : str) :
  scan_once (S fuel) (nextchar :: r)
  = if nextchar =? 34 then parse_map PStr (scanstring r)
    else if nextchar =? 123 then JSONObject (scan_once fuel) fuel r
    else if nextchar =? 91 then JSONArray (scan_once fuel) fuel r
    else
      keyword (py "null") PNone (nextchar :: r) (
      keyword (py "true") (PBool true) (nextchar :: r) (
      keyword (py "false") (PBool false) (nextchar :: r) (
      match match_number (nextchar :: r) with
      | Parsed number rest => Parsed number rest
      | _ =>
        keyword (py "NaN") (PFloat (float_of_str (py "NaN")))
                (nextchar :: r) (
        keyword (py "Infinity") (PFloat (float_of_str (py "Infinity")))
                (nextchar :: r) (
        keyword (py "-Infinity") (PFloat (float_of_str (py "-Infinity")))
                (nextchar :: r) Failed))
      end))).
Proof. reflexivity. Qed.
















(** *** Arrays *)



(** *** Objects *)






(** *** Every JSON value is read back from its text *)






(** *** UTF-8 on ASCII text *)



(** *** The step counter of the scanner is never exhausted *)

Lemma parse_map_shorter {A B : Type} (f : A → B) (p : parse A) (n : nat) :
  match p with
  | Parsed _ r => (length r < n)%nat
  | Failed => True
  | Starved => False
  end →
  match parse_map f p with
  | Parsed _ r => (length r < S n)%nat
  | Failed => True
  | Starved => False
  end.
Proof. destruct p; cbn; [lia | trivial | trivial]. Qed.

Lemma scanstring_shorter (s : str) :
  match scanstring s with
  | Parsed _ r => (length r < length s)%nat
  | Failed => True
  | Starved => False
  end.
Proof.
  remember (length s) as n eqn:Hn. revert s Hn.
  induction n as [n IH] using lt_wf_ind. intros s Hn.
  assert (Hrec : ∀ (c : N) (r : str),
             (length r < n)%nat →
             match parse_map (cons c) (scanstring r) with
             | Parsed _ r' => (length r' < n)%nat
             | Failed => True
             | Starved => False
             end).
  { intros c r Hr.
    pose proof (IH (length r) Hr r eq_refl) as Hshort.
    destruct (scanstring r); cbn; [lia | trivial | trivial]. }
  clear IH.
  destruct s as [ | c r]; [exact I | ].
  cbn [length] in Hn. cbn [scanstring].
  repeat
    match goal with
    | |- True => exact I
    | |- (length _ < _)%nat => subst n; cbn [length]; lia
    | |- match parse_map _ (scanstring ?r) with _ => _ end =>
      apply (Hrec _ r); subst n; cbn [length]; lia
    | |- context [if ?b then _ else _] => destruct b
    | |- context [match ?o with Some _ => _ | None => _ end] => destruct o
    | |- context [match ?r with [] => _ | _ :: _ => _ end] =>
      is_var r; destruct r; cbn [length] in Hn
    end.
Qed.

Lemma span_digits_shorter (s : str) :
  (length (span_digits s).2 ≤ length s)%nat.
Proof.
  induction s as [ | c r IH]; [reflexivity | ].
  cbn [span_digits]. destruct (digit c); [ | reflexivity].
  destruct (span_digits r) as [ds rest]. cbn in *. lia.
Qed.

Lemma match_integer_shorter (s integer r : str) :
  match_integer s = Some (integer, r) → (length r < length s)%nat.
Proof.
  unfold match_integer. intros Hm.
  assert (Hone : ∀ s1 sign,
             match s1 with
             | [] => None
             | c :: r0 =>
               if c =? 48 then Some (sign ++ [48], r0)
               else if digit c
               then let '(ds, rest) := span_digits r0 in
                    Some (sign ++ c :: ds, rest)
               else None
             end = Some (integer, r) → (length r < length s1)%nat).
  { intros [ | c r0] sign Hs; [discriminate Hs | ].
    destruct (c =? 48); [injection Hs as _ <-; cbn; lia | ].
    destruct (digit c); [ | discriminate Hs].
    pose proof (span_digits_shorter r0) as Hlen.
    destruct (span_digits r0) as [ds rest]. injection Hs as _ <-.
    cbn in *. lia. }
  destruct s as [ | c r0]; [discriminate Hm | ].
  destruct (c =? 45).
  - apply (Hone r0 [45]) in Hm. cbn. lia.
  - apply (Hone (c :: r0) []) in Hm. exact Hm.
Qed.

Lemma match_frac_shorter (s : str) :
  (length (match_frac s).2 ≤ length s)%nat.
Proof.
  unfold match_frac. destruct s as [ | c r]; [reflexivity | ].
  destruct (c =? 46); [ | reflexivity].
  pose proof (span_digits_shorter r) as Hlen.
  destruct (span_digits r) as [[ | d ds] rest]; cbn in *; lia.
Qed.

Lemma match_exp_shorter (s : str) :
  (length (match_exp s).2 ≤ length s)%nat.
Proof.
  unfold match_exp. destruct s as [ | e r]; [reflexivity | ].
  destruct ((e =? 101) || (e =? 69)); [ | reflexivity].
  destruct r as [ | c r'].
  - reflexivity.
  - destruct ((c =? 45) || (c =? 43)).
    + pose proof (span_digits_shorter r') as Hlen.
      destruct (span_digits r') as [[ | d ds] rest]; cbn in *; lia.
    + pose proof (span_digits_shorter (c :: r')) as Hlen.
      destruct (span_digits (c :: r')) as [[ | d ds] rest]; cbn in *; lia.
Qed.

Lemma match_number_shorter (s : str) :
  match match_number s with
  | Parsed _ r => (length r < length s)%nat
  | Failed => True
  | Starved => False
  end.
Proof.
  unfold match_number.
  destruct (match_integer s) as [[integer r] | ] eqn:Hint; [ | exact I].
  apply match_integer_shorter in Hint.
  pose proof (match_frac_shorter r) as Hfrac.
  destruct (match_frac r) as [frac r1].
  pose proof (match_exp_shorter r1) as Hexp.
  destruct (match_exp r1) as [exp r2].
  cbn in Hfrac, Hexp. destruct (frac ++ exp); cbn; lia.
Qed.

Lemma strip_prefix_length (p s r : str) :
  strip_prefix p s = Some r → length s = (length p + length r)%nat.
Proof.
  revert s. induction p as [ | a p IH]; intros s Hs.
  - injection Hs as <-. reflexivity.
  - destruct s as [ | b s]; [discriminate Hs | ]. cbn [strip_prefix] in Hs.
    destruct (a =? b); [ | discriminate Hs].
    cbn [length]. rewrite (IH s Hs). reflexivity.
Qed.

Lemma keyword_shorter (a : N) (name : str) (value : pyval) (s : str)
    (otherwise : parse pyval) :
  match otherwise with
  | Parsed _ r => (length r < length s)%nat
  | Failed => True
  | Starved => False
  end →
  match keyword (a :: name) value s otherwise with
  | Parsed _ r => (length r < length s)%nat
  | Failed => True
  | Starved => False
  end.
Proof.
  intros Hother. unfold keyword.
  destruct (strip_prefix (a :: name) s) as [rest | ] eqn:Hs; [ | exact Hother].
  apply strip_prefix_length in Hs. cbn [length] in Hs. lia.
Qed.

Lemma skip_ws_shorter (s : str) : (length (skip_ws s) ≤ length s)%nat.
Proof.
  induction s as [ | c r IH]; [reflexivity | ].
  cbn [skip_ws]. destruct (whitespace c); cbn [length]; lia.
Qed.

Lemma array_values_fuel (scan : str → parse pyval) (f : nat) :
  (∀ s, (length s < f)%nat →
        match scan s with
        | Parsed _ r => (length r < length s)%nat
        | Failed => True
        | Starved => False
        end) →
  ∀ (n : nat) (s : str),
    (length s < n)%nat → (length s < f)%nat →
    match array_values scan n s with
    | Parsed _ r => (length r < length s)%nat
    | Failed => True
    | Starved => False
    end.
Proof.
  intros Hscan. induction n as [ | n IH]; intros s Hn Hf; [lia | ].
  cbn [array_values]. specialize (Hscan s Hf).
  destruct (scan s) as [value r | | ]; [ | exact I | exact Hscan].
  pose proof (skip_ws_shorter r) as Hws.
  destruct (skip_ws r) as [ | c r']; [exact I | ]. cbn [length] in Hws.
  destruct (c =? 93); [cbn; lia | ].
  destruct (c =? 44); [ | exact I].
  pose proof (skip_ws_shorter r') as Hws'.
  specialize (IH (skip_ws r') ltac:(lia) ltac:(lia)).
  destruct (array_values scan n (skip_ws r')); cbn; [lia | exact I | exact IH].
Qed.

Lemma object_pairs_fuel (scan : str → parse pyval) (f : nat) :
  (∀ s, (length s < f)%nat →
        match scan s with
        | Parsed _ r => (length r < length s)%nat
        | Failed => True
        | Starved => False
        end) →
  ∀ (n : nat) (s : str),
    (length s < n)%nat → (length s < f)%nat →
    match object_pairs scan n s with
    | Parsed _ r => (length r < length s)%nat
    | Failed => True
    | Starved => False
    end.
Proof.
  intros Hscan. induction n as [ | n IH]; intros s Hn Hf; [lia | ].
  cbn [object_pairs]. pose proof (scanstring_shorter s) as Hkey.
  destruct (scanstring s) as [key r | | ]; [ | exact I | exact Hkey].
  pose proof (skip_ws_shorter r) as Hws.
  destruct (skip_ws r) as [ | c r1]; [exact I | ]. cbn [length] in Hws.
  destruct (c =? 58); [ | exact I].
  pose proof (skip_ws_shorter r1) as Hws1.
  specialize (Hscan (skip_ws r1) ltac:(lia)).
  destruct (scan (skip_ws r1)) as [value r2 | | ]; [ | exact I | exact Hscan].
  pose proof (skip_ws_shorter r2) as Hws2.
  destruct (skip_ws r2) as [ | d r3]; [exact I | ]. cbn [length] in Hws2.
  destruct (d =? 125); [cbn; lia | ].
  destruct (d =? 44); [ | exact I].
  pose proof (skip_ws_shorter r3) as Hws3.
  destruct (skip_ws r3) as [ | q r4]; [exact I | ]. cbn [length] in Hws3.
  destruct (q =? 34); [ | exact I].
  specialize (IH r4 ltac:(lia) ltac:(lia)).
  destruct (object_pairs scan n r4); cbn; [lia | exact I | exact IH].
Qed.

Lemma scan_once_fuel (fuel : nat) (s : str) :
  (length s < fuel)%nat →
  match scan_once fuel s with
  | Parsed _ r => (length r < length s)%nat
  | Failed => True
  | Starved => False
  end.
Proof.
  revert s. induction fuel as [ | fuel IH]; intros s Hfuel; [lia | ].
  destruct s as [ | c r]; [exact I | ]. cbn [length] in Hfuel.
  rewrite scan_once_unfold.
  destruct (c =? 34).
  { pose proof (scanstring_shorter r) as Hr.
    destruct (scanstring r); cbn; [lia | exact I | exact Hr]. }
  destruct (c =? 123).
  { unfold JSONObject. pose proof (skip_ws_shorter r) as Hws.
    destruct (skip_ws r) as [ | q r1]; [exact I | ]. cbn [length] in Hws.
    destruct (q =? 34).
    - pose proof (object_pairs_fuel (scan_once fuel) fuel IH fuel r1
                    ltac:(lia) ltac:(lia)) as Hp.
      destruct (object_pairs (scan_once fuel) fuel r1);
        cbn; [lia | exact I | exact Hp].
    - destruct (q =? 125); [cbn; lia | exact I]. }
  destruct (c =? 91).
  { unfold JSONArray. pose proof (skip_ws_shorter r) as Hws.
    destruct (skip_ws r) as [ | q r1] eqn:Hskip; [exact I | ].
    cbn [length] in Hws.
    destruct (q =? 93); [cbn; lia | ].
    pose proof (array_values_fuel (scan_once fuel) fuel IH fuel (q :: r1)
                  ltac:(cbn [length]; lia) ltac:(cbn [length]; lia)) as Hv.
    destruct (array_values (scan_once fuel) fuel (q :: r1));
      cbn in *; [lia | exact I | exact Hv]. }
  change (py "null") with [110; 117; 108; 108].
  change (py "true") with [116; 114; 117; 101].
  change (py "false") with [102; 97; 108; 115; 101].
  change (py "NaN") with [78; 97; 78].
  change (py "Infinity") with [73; 110; 102; 105; 110; 105; 116; 121].
  change (py "-Infinity") with [45; 73; 110; 102; 105; 110; 105; 116; 121].
  do 3 apply keyword_shorter.
  pose proof (match_number_shorter (c :: r)) as Hnum.
  destruct (match_number (c :: r)); [exact Hnum | | ];
    do 3 apply keyword_shorter; exact I.
Qed.

(** [json_loads] never takes its last branch. *)
Lemma json_loads_fuel (s : str) :
  scan_once (S (length s)) (skip_ws s) ≠ Starved.
Proof.
  pose proof (skip_ws_shorter s) as Hws.
  pose proof (scan_once_fuel (S (length s)) (skip_ws s) ltac:(lia)) as Hscan.
  intros Hstarved. rewrite Hstarved in Hscan. exact Hscan.
Qed.

(** *** The codec *)

Lemma utf8_decode_outcome (errors : utf8.error_handler) (bs : bytes) :
  match utf8.decode errors bs with
  | Returns _ => True
  | Raises e => errors = utf8.strict ∧ e = UnicodeDecodeError
  end.
Proof.
  remember (length bs) as n eqn:Hn. revert bs Hn.
  induction n as [n IH] using lt_wf_ind. intros bs Hn.
  assert (Hrec : ∀ r, (length r < n)%nat →
                      match utf8.decode errors r with
                      | Returns _ => True
                      | Raises e => errors = utf8.strict
                                    ∧ e = UnicodeDecodeError
                      end)
    by (intros r Hr; exact (IH (length r) Hr r eq_refl)).
  assert (Hcons : ∀ c r, (length r < n)%nat →
                         match cons c <$> utf8.decode errors r with
                         | Returns _ => True
                         | Raises e => errors = utf8.strict
                                       ∧ e = UnicodeDecodeError
                         end).
  { intros c r Hr. specialize (Hrec r Hr).
    destruct (utf8.decode errors r); [exact I | exact Hrec]. }
  assert (Hbad : ∀ r, (length r < n)%nat →
                      match utf8.malformed errors (utf8.decode errors r) with
                      | Returns _ => True
                      | Raises e => errors = utf8.strict
                                    ∧ e = UnicodeDecodeError
                      end).
  { intros r Hr. unfold utf8.malformed.
    destruct errors; [split; reflexivity | apply Hcons; exact Hr]. }
  assert (Hend : match utf8.malformed errors (Returns []) with
                 | Returns _ => True
                 | Raises e => errors = utf8.strict ∧ e = UnicodeDecodeError
                 end).
  { unfold utf8.malformed. destruct errors; [split; reflexivity | exact I]. }
  clear IH.
  destruct bs as [ | b0 r0]; [exact I | ].
  cbn [length] in Hn. cbn [utf8.decode]. cbv zeta.
  repeat
    match goal with
    | |- context [if ?b then _ else _] => destruct b
    | |- match cons _ <$> utf8.decode _ ?r with _ => _ end =>
      apply Hcons; subst n; cbn [length]; lia
    | |- match utf8.malformed _ (utf8.decode _ ?r) with _ => _ end =>
      apply Hbad; subst n; cbn [length]; lia
    | |- match utf8.malformed _ (Returns []) with _ => _ end => exact Hend
    | |- context [match ?r with [] => _ | _ :: _ => _ end] =>
      is_var r; destruct r; cbn [length] in Hn
    end.
Qed.

Lemma utf8_decode_replace_total (bs : bytes) :
  ∃ text, utf8.decode utf8.replace bs = Returns text.
Proof.
  pose proof (utf8_decode_outcome utf8.replace bs) as Hd.
  destruct (utf8.decode utf8.replace bs) as [text | e].
  - exists text. reflexivity.
  - destruct Hd as [Hd _]. discriminate Hd.
Qed.

Lemma json_loads_outcome (s : str) :
  match json_loads s with
  | Returns _ => True
  | Raises e => e = JSONDecodeError
  end.
Proof.
  unfold json_loads.
  destruct (match s with c :: _ => c =? 0xFEFF | [] => false end);
    [reflexivity | ].
  destruct (scan_once _ _) as [obj rest | | ]; try reflexivity.
  destruct (skip_ws rest); [exact I | reflexivity].
Qed.

Lemma strict_json_outcome (comment : bytes) :
  match utf8.decode utf8.strict comment ≫= json_loads with
  | Returns _ => True
  | Raises e => e = JSONDecodeError ∨ e = UnicodeDecodeError
  end.
Proof.
  pose proof (utf8_decode_outcome utf8.strict comment) as Hd.
  destruct (utf8.decode utf8.strict comment) as [text | e]; cbn.
  - pose proof (json_loads_outcome text) as Hl.
    destruct (json_loads text); [exact I | left; exact Hl].
  - right. apply Hd.
Qed.

Lemma _decode_metadata_total (comment : bytes) :
  ∃ value, _decode_metadata comment = Returns value.
Proof.
  unfold _decode_metadata. case_bool_decide; [eexists; reflexivity | ].
  pose proof (strict_json_outcome comment) as Hs.
  destruct (utf8_decode_replace_total comment) as [text Htext].
  destruct (utf8.decode utf8.strict comment ≫= json_loads) as [value | e].
  - exists value. reflexivity.
  - rewrite Htext. destruct Hs as [-> | ->]; eexists; reflexivity.
Qed.

(** C8. Decoding the empty byte string gives the empty mapping. *)
Theorem decode_empty : _decode_metadata [] = Returns (PDict []).
Proof. reflexivity. Qed.



(** *** The container index *)

Lemma index_snoc (infos : list ZipInfo.t) (x : ZipInfo.t) :
  ZipFile.index (infos ++ [x])
  = <[ZipInfo.filename x := x]> (ZipFile.index infos).
Proof. unfold ZipFile.index. rewrite foldl_app. reflexivity. Qed.

Lemma index_lookup (infos : list ZipInfo.t) (name : str) :
  match ZipFile.index infos !! name with
  | None => name ∉ ZipInfo.filename <$> infos
  | Some info => info ∈ infos ∧ ZipInfo.filename info = name
  end.
Proof.
  induction infos as [ | x infos IH] using rev_ind.
  - unfold ZipFile.index. cbn [foldl]. rewrite lookup_empty.
    cbn. apply not_elem_of_nil.
  - rewrite index_snoc.
    destruct (decide (ZipInfo.filename x = name)) as [<- | Hne].
    + rewrite lookup_insert_eq. split; [ | reflexivity].
      apply elem_of_app. right. apply list_elem_of_singleton. reflexivity.
    + rewrite lookup_insert_ne by exact Hne.
      destruct (ZipFile.index infos !! name) as [info | ].
      * destruct IH as [Hin Hname]. split; [ | exact Hname].
        apply elem_of_app. left. exact Hin.
      * rewrite fmap_app. intros Hin. apply elem_of_app in Hin as [Hin | Hin].
        -- exact (IH Hin).
        -- cbn in Hin. apply list_elem_of_singleton in Hin. congruence.
Qed.

(** The index is in step with the member list from the opening of the
    container on, and [writestr] keeps it so. *)
Lemma init_indexed (disk : gmap str archive_file) (file mode : str)
    (zf : ZipFile.t) (disk' : gmap str archive_file) :
  ZipFile.init disk file mode = (Returns zf, disk') → ZipFile.indexed zf.
Proof.
  unfold ZipFile.init, ZipFile.indexed. intros Hinit.
  destruct (bool_decide (mode = py "r")).
  - destruct (disk !! file) as [image | ]; [ | discriminate Hinit].
    injection Hinit as <- _. reflexivity.
  - destruct (bool_decide (mode = py "w")); [ | discriminate Hinit].
    injection Hinit as <- _. reflexivity.
Qed.

Lemma writestr_indexed (zf zf' : ZipFile.t) (zinfo : ZipInfo.t)
    (data : bytes) :
  ZipFile.indexed zf → ZipFile.writestr zf zinfo data = Returns zf' →
  ZipFile.indexed zf'.
Proof.
  unfold ZipFile.writestr, ZipFile.indexed. intros Hidx Hw.
  case_bool_decide; [ | discriminate Hw].
  inversion Hw; subst. cbn. rewrite index_snoc, Hidx. reflexivity.
Qed.

(** *** The methods on an open handle *)

Lemma add_file_open (files : gmap str node) (filepath : str)
    (metadata : pyval) (arcname : option str) (self : ZipArchive)
    (zf : ZipFile.t) :
  archive self = Some zf →
  add_file files filepath metadata arcname self
  = if negb (bool_decide (mode self = py "w"))
    then (Raises (RuntimeError
                    "Archive must be opened in write mode to add files"),
          self)
    else if negb (bool_decide (is_Some (files !! filepath)))
    then (Raises (FileNotFoundError filepath), self)
    else
      match ZipInfo.from_file files filepath
              (Some (name_in_archive filepath arcname)) with
      | Raises e => (Raises e, self)
      | Returns zinfo =>
        match (if truthy metadata
               then with_comment zinfo <$> _encode_metadata metadata
               else Returns zinfo) with
        | Raises e => (Raises e, self)
        | Returns zinfo =>
          match read_binary files filepath with
          | Raises e => (Raises e, self)
          | Returns data =>
            match ZipFile.writestr zf zinfo data with
            | Raises e => (Raises e, self)
            | Returns zf' =>
              (Returns (), {| filename := filename self; mode := mode self;
                              archive := Some zf' |})
            end
          end
        end
      end.
Proof.
  intros Harch. unfold add_file, requires_open_archive. rewrite Harch.
  unfold mbind, method_bind, get_self, raise, call, mret, method_ret,
    self_archive, set_archive.
  destruct (negb (bool_decide (mode self = py "w"))); [reflexivity | ].
  destruct (negb (bool_decide (is_Some (files !! filepath))));
    [reflexivity | ].
  destruct (ZipInfo.from_file files filepath _) as [zinfo | e];
    [ | reflexivity].
  destruct (truthy metadata).
  - destruct (_encode_metadata metadata) as [c | e]; cbn; [ | reflexivity].
    destruct (read_binary files filepath) as [data | e]; [ | reflexivity].
    rewrite Harch.
    destruct (ZipFile.writestr zf _ data); reflexivity.
  - destruct (read_binary files filepath) as [data | e]; [ | reflexivity].
    rewrite Harch.
    destruct (ZipFile.writestr zf _ data); reflexivity.
Qed.

Lemma get_file_metadata_open (name : str) (self : ZipArchive)
    (zf : ZipFile.t) :
  archive self = Some zf →
  get_file_metadata name self
  = match ZipFile.NameToInfo zf !! posixpath.basename name with
    | None => (Raises (KeyError (posixpath.basename name)), self)
    | Some info => (_decode_metadata (ZipInfo.comment info), self)
    end.
Proof.
  intros Harch. unfold get_file_metadata, requires_open_archive.
  rewrite Harch.
  unfold mbind, method_bind, self_archive, raise, call. rewrite Harch.
  unfold ZipFile.getinfo.
  destruct (ZipFile.NameToInfo zf !! posixpath.basename name) as [info | ];
    [ | reflexivity].
  cbn. destruct (_decode_metadata_total (ZipInfo.comment info)) as [v ->].
  reflexivity.
Qed.






Lemma from_file_new (files : gmap str node) (name : str)
    (arcname : option str) (zinfo : ZipInfo.t) :
  ZipInfo.from_file files name arcname = Returns zinfo →
  is_Some (files !! name) ∧ ZipInfo.comment zinfo = [].
Proof.
  unfold ZipInfo.from_file. intros Hfrom.
  destruct (files !! name) as [nd | ]; [ | discriminate Hfrom].
  split; [eexists; reflexivity | ].
  destruct (ZipInfo.strip_leading_sep _) as [a | e]; [ | discriminate Hfrom].
  cbn in Hfrom. destruct nd; injection Hfrom as <-; reflexivity.
Qed.

(** When [add_file] returns, the archive has one member more, at the end
    of the list and in the index under its name; no member is removed. *)
Lemma add_file_returns (files : gmap str node) (filepath : str)
    (metadata : pyval) (arcname : option str) (self self' : ZipArchive) :
  add_file files filepath metadata arcname self = (Returns (), self') →
  ∃ zf zf' info,
    archive self = Some zf ∧ archive self' = Some zf'
    ∧ ZipFile.filelist zf' = ZipFile.filelist zf ++ [info]
    ∧ ZipFile.NameToInfo zf'
      = <[ZipInfo.filename info := info]> (ZipFile.NameToInfo zf)
    ∧ (if truthy metadata
       then _encode_metadata metadata = Returns (ZipInfo.comment info)
       else ZipInfo.comment info = []).
Proof.
  intros Hadd.
  destruct (archive self) as [zf | ] eqn:Harch;
    [ | unfold add_file, requires_open_archive in Hadd;
        rewrite Harch in Hadd; discriminate Hadd].
  rewrite (add_file_open _ _ _ _ _ _ Harch) in Hadd.
  destruct (negb (bool_decide (mode self = py "w"))); [discriminate Hadd | ].
  destruct (negb (bool_decide (is_Some (files !! filepath))));
    [discriminate Hadd | ].
  destruct (ZipInfo.from_file files filepath _) as [zinfo | e] eqn:Hfrom;
    [ | discriminate Hadd].
  destruct (from_file_new _ _ _ _ Hfrom) as [_ Hcomment].
  assert (Hzinfo : ∃ zinfo',
             (if truthy metadata
              then with_comment zinfo <$> _encode_metadata metadata
              else Returns zinfo) = Returns zinfo'
             ∧ (if truthy metadata
                then _encode_metadata metadata
                     = Returns (ZipInfo.comment zinfo')
                else ZipInfo.comment zinfo' = [])).
  { destruct (truthy metadata).
    - destruct (_encode_metadata metadata) as [c | e];
        [ | discriminate Hadd].
      eexists. split; reflexivity.
    - exists zinfo. split; [reflexivity | exact Hcomment]. }
  destruct Hzinfo as (zinfo' & Hzinfo & Hcomment'). rewrite Hzinfo in Hadd.
  destruct (read_binary files filepath) as [data | e]; [ | discriminate Hadd].
  unfold ZipFile.writestr in Hadd.
  destruct (bool_decide (ZipFile.mode zf = py "w")); [ | discriminate Hadd].
  injection Hadd as <-.
  eexists zf, _, _. split; [reflexivity | ]. split; [reflexivity | ].
  cbn. split; [reflexivity | ]. split; [reflexivity | exact Hcomment'].
Qed.

(** C1 (on the code). Adding two files under the name ["x.txt"] in one
    write session leaves two entries of that name: [list_contents] gives
    both, each with its own size and metadata, in the session and again
    when the archive is opened for reading; only the lookup by name,
    [get_file_metadata], answers with the second. *)
Theorem same_name_listed_twice :
  let written := with_archive ∅ (py "test.zip") (py "w") same_name_session in
  written.1 = Returns [x_txt_item 8 "dir1"; x_txt_item 9 "dir2"]
  ∧ (with_archive written.2 (py "test.zip") (py "r") list_contents).1
    = Returns [x_txt_item 8 "dir1"; x_txt_item 9 "dir2"]
  ∧ (with_archive written.2 (py "test.zip") (py "r")
       (get_file_metadata (py "x.txt"))).1
    = Returns (tagged "source" "dir2").
Proof. vm_compute. repeat split. Qed.


(** C5. On an open handle in mode ['w'], [add_file] of a path that does
    not exist raises [FileNotFoundError] and leaves the handle, and so the
    archive, as it was. *)
Theorem add_file_missing_source (files : gmap str node) (filepath : str)
    (metadata : pyval) (arcname : option str) (self : ZipArchive)
    (zf : ZipFile.t) :
  archive self = Some zf → mode self = py "w" → files !! filepath = None →
  add_file files filepath metadata arcname self
  = (Raises (FileNotFoundError filepath), self).
Proof.
  intros Harch Hmode Hmissing.
  rewrite (add_file_open _ _ _ _ _ _ Harch), Hmode, Hmissing. reflexivity.
Qed.



(** C9. [add_file] with the empty mapping as metadata does what
    [add_file] without metadata does; when it returns, the member it
    appended has an empty comment, which decodes to the empty mapping. *)
Theorem add_file_empty_metadata (files : gmap str node) (filepath : str)
    (arcname : option str) (self : ZipArchive) :
  add_file files filepath (PDict []) arcname self
  = add_file files filepath PNone arcname self
  ∧ ∀ self',
      add_file files filepath (PDict []) arcname self = (Returns (), self') →
      ∃ zf zf' info,
        archive self = Some zf ∧ archive self' = Some zf'
        ∧ ZipFile.filelist zf' = ZipFile.filelist zf ++ [info]
        ∧ ZipFile.getinfo zf' (ZipInfo.filename info) = Returns info
        ∧ ZipInfo.comment info = []
        ∧ _decode_metadata (ZipInfo.comment info) = Returns (PDict []).
Proof.
  split; [reflexivity | ].
  intros self' Hadd.
  destruct (add_file_returns _ _ _ _ _ _ Hadd)
    as (zf & zf' & info & Harch & Harch' & Hlist & Hindex & Hcomment).
  cbn in Hcomment.
  exists zf, zf', info. repeat split; try assumption.
  - unfold ZipFile.getinfo. rewrite Hindex, lookup_insert_eq. reflexivity.
  - rewrite Hcomment. reflexivity.
Qed.

(** C10. On an open handle in mode ['r'], [add_file] of a path that does
    not exist raises the [RuntimeError] of the write-mode check, which
    comes first, and not [FileNotFoundError]. *)
Theorem add_file_mode_before_source (files : gmap str node) (filepath : str)
    (metadata : pyval) (arcname : option str) (self : ZipArchive)
    (zf : ZipFile.t) :
  archive self = Some zf → mode self = py "r" → files !! filepath = None →
  add_file files filepath metadata arcname self
  = (Raises (RuntimeError
               "Archive must be opened in write mode to add files"), self)
  ∧ ∀ path, (add_file files filepath metadata arcname self).1
            ≠ Raises (FileNotFoundError path).
Proof.
  intros Harch Hmode _.
  rewrite (add_file_open _ _ _ _ _ _ Harch), Hmode.
  split; [reflexivity | discriminate].
Qed.


(** ** More of the handle *)

(** *** The methods on an open handle, continued *)

Lemma set_archive_metadata_open (metadata : pyval) (self : ZipArchive)
    (zf : ZipFile.t) :
  archive self = Some zf →
  set_archive_metadata metadata self
  = if negb (bool_decide (mode self = py "w"))
    then (Raises (RuntimeError
                    "Archive must be opened in write mode to set metadata"),
          self)
    else
      match _encode_metadata metadata with
      | Raises e => (Raises e, self)
      | Returns c =>
        (Returns (), {| filename := filename self; mode := mode self;
                        archive := Some (ZipFile.set_comment zf c) |})
      end.
Proof.
  intros Harch. unfold set_archive_metadata, requires_open_archive.
  rewrite Harch.
  unfold mbind, method_bind, get_self, raise, call, self_archive,
    set_archive.
  destruct (negb (bool_decide (mode self = py "w"))); [reflexivity | ].
  destruct (_encode_metadata metadata) as [c | e]; [ | reflexivity].
  rewrite Harch. reflexivity.
Qed.

Lemma get_archive_metadata_open (self : ZipArchive) (zf : ZipFile.t) :
  archive self = Some zf →
  get_archive_metadata self = (_decode_metadata (ZipFile.comment zf), self).
Proof.
  intros Harch. unfold get_archive_metadata, requires_open_archive.
  rewrite Harch. unfold mbind, method_bind, self_archive, call.
  rewrite Harch. reflexivity.
Qed.

Lemma list_contents_open (self : ZipArchive) (zf : ZipFile.t) :
  archive self = Some zf →
  list_contents self = (contents_of (ZipFile.filelist zf), self).
Proof.
  intros Harch. unfold list_contents, requires_open_archive.
  rewrite Harch. unfold mbind, method_bind, self_archive, call.
  rewrite Harch. reflexivity.
Qed.

(** What [add_file] appends: the name [ZipInfo] made of the archive name,
    the length of the file for both sizes, and the encoded metadata, if
    any, as comment. *)
Lemma add_file_entry (files : gmap str node) (filepath : str)
    (metadata : pyval) (arcname : option str) (self self' : ZipArchive) :
  add_file files filepath metadata arcname self = (Returns (), self') →
  ∃ zf zinfo data c,
    archive self = Some zf ∧ mode self = py "w"
    ∧ ZipInfo.from_file files filepath
        (Some (name_in_archive filepath arcname)) = Returns zinfo
    ∧ files !! filepath = Some (File data)
    ∧ (if truthy metadata then _encode_metadata metadata = Returns c
       else c = [])
    ∧ let info := {| ZipInfo.filename := ZipInfo.filename zinfo;
                     ZipInfo.file_size := length data;
                     ZipInfo.compress_size := length data;
                     ZipInfo.comment := c |} in
      self' = {| filename := filename self; mode := mode self;
                 archive :=
                   Some {| ZipFile.filename := ZipFile.filename zf;
                           ZipFile.mode := ZipFile.mode zf;
                           ZipFile.filelist := ZipFile.filelist zf ++ [info];
                           ZipFile.NameToInfo :=
                             <[ZipInfo.filename zinfo := info]>
                               (ZipFile.NameToInfo zf);
                           ZipFile.comment := ZipFile.comment zf |} |}.
Proof.
  intros Hadd.
  destruct (archive self) as [zf | ] eqn:Harch;
    [ | unfold add_file, requires_open_archive in Hadd;
        rewrite Harch in Hadd; discriminate Hadd].
  rewrite (add_file_open _ _ _ _ _ _ Harch) in Hadd.
  destruct (bool_decide (mode self = py "w")) eqn:Hmode;
    [ | discriminate Hadd].
  apply bool_decide_eq_true in Hmode. cbn [negb] in Hadd.
  destruct (negb (bool_decide (is_Some (files !! filepath))));
    [discriminate Hadd | ].
  destruct (ZipInfo.from_file files filepath _) as [zinfo | e] eqn:Hfrom;
    [ | discriminate Hadd].
  destruct (from_file_new _ _ _ _ Hfrom) as [_ Hcomment].
  assert (Hzinfo : ∃ c,
             (if truthy metadata
              then with_comment zinfo <$> _encode_metadata metadata
              else Returns zinfo) = Returns (with_comment zinfo c)
             ∧ (if truthy metadata
                then _encode_metadata metadata = Returns c
                else c = [])).
  { destruct (truthy metadata).
    - destruct (_encode_metadata metadata) as [c | e];
        [ | discriminate Hadd].
      exists c. split; reflexivity.
    - exists []. split; [ | reflexivity].
      destruct zinfo as [n fs cs cm]. cbn in Hcomment. subst cm.
      reflexivity. }
  destruct Hzinfo as (c & Hzinfo & Hc). rewrite Hzinfo in Hadd.
  unfold read_binary in Hadd.
  destruct (files !! filepath) as [[data | ] | ] eqn:Hfile;
    try discriminate Hadd.
  unfold ZipFile.writestr in Hadd.
  destruct (bool_decide (ZipFile.mode zf = py "w")); [ | discriminate Hadd].
  injection Hadd as <-.
  exists zf, zinfo, data, c. repeat split; try assumption.
Qed.







(** X2. When [set_archive_metadata] has returned, a second call has the
    outcome it would have had without the first, and when it returns it
    leaves the handle it would have left without the first: only the last
    value is kept. *)
Theorem set_archive_metadata_last_wins (first second : pyval)
    (self self1 : ZipArchive) :
  set_archive_metadata first self = (Returns (), self1) →
  (set_archive_metadata second self1).1 = (set_archive_metadata second self).1
  ∧ ∀ self2, set_archive_metadata second self1 = (Returns (), self2) →
             set_archive_metadata second self = (Returns (), self2).
Proof.
  intros Hfirst.
  destruct (archive self) as [zf | ] eqn:Harch;
    [ | unfold set_archive_metadata, requires_open_archive in Hfirst;
        rewrite Harch in Hfirst; discriminate Hfirst].
  rewrite (set_archive_metadata_open _ _ _ Harch) in Hfirst.
  rewrite (set_archive_metadata_open second _ _ Harch).
  destruct (negb (bool_decide (mode self = py "w"))) eqn:Hmode;
    [discriminate Hfirst | ].
  destruct (_encode_metadata first) as [c1 | e]; [ | discriminate Hfirst].
  injection Hfirst as <-.
  erewrite (set_archive_metadata_open second) by reflexivity.
  cbn [mode filename]. rewrite Hmode.
  destruct (_encode_metadata second) as [c2 | e].
  - split; [reflexivity | ]. intros self2 Hsecond. exact Hsecond.
  - split; [reflexivity | ]. intros self2 Hsecond. discriminate Hsecond.
Qed.


Lemma add_file_raises_clean (files : gmap str node) (filepath : str)
    (metadata : pyval) (arcname : option str) (self self' : ZipArchive)
    (e : exn) :
  add_file files filepath metadata arcname self = (Raises e, self') →
  self' = self.
Proof.
  intros Hcall. destruct (archive self) as [zf | ] eqn:Harch.
  - rewrite (add_file_open _ _ _ _ _ _ Harch) in Hcall.
    repeat
      match type of Hcall with
      | context [if ?b then _ else _] => destruct b
      | context [match ?o with Returns _ => _ | Raises _ => _ end] =>
        destruct o
      end;
      congruence.
  - unfold add_file, requires_open_archive in Hcall.
    rewrite Harch in Hcall. congruence.
Qed.

Lemma set_archive_metadata_raises_clean (metadata : pyval)
    (self self' : ZipArchive) (e : exn) :
  set_archive_metadata metadata self = (Raises e, self') → self' = self.
Proof.
  intros Hcall. destruct (archive self) as [zf | ] eqn:Harch.
  - rewrite (set_archive_metadata_open _ _ _ Harch) in Hcall.
    destruct (negb (bool_decide (mode self = py "w"))); [congruence | ].
    destruct (_encode_metadata metadata); congruence.
  - unfold set_archive_metadata, requires_open_archive in Hcall.
    rewrite Harch in Hcall. congruence.
Qed.

(** X4. A call of [add_file] or of [set_archive_metadata] that raises
    leaves the handle as it found it. *)
Theorem mutators_raise_clean (files : gmap str node) (filepath : str)
    (metadata : pyval) (arcname : option str) (self self' : ZipArchive)
    (e : exn) :
  add_file files filepath metadata arcname self = (Raises e, self')
  ∨ set_archive_metadata metadata self = (Raises e, self') →
  self' = self.
Proof.
  intros [Hadd | Hset].
  - exact (add_file_raises_clean _ _ _ _ _ _ _ Hadd).
  - exact (set_archive_metadata_raises_clean _ _ _ _ Hset).
Qed.

(** X5. On a handle as [__init__] returns it, not yet entered, each of
    the five methods raises the [RuntimeError] of the guard, whatever the
    mode and the arguments, and leaves the handle as it is. *)
Theorem methods_require_open (file m : str) (self : ZipArchive)
    (files : gmap str node) (filepath : str) (metadata : pyval)
    (arcname : option str) (name : str) :
  __init__ file m = Returns self →
  let closed {A : Type} : outcome A * ZipArchive :=
    (Raises (RuntimeError "Archive not opened. Use with context manager."),
     self) in
  add_file files filepath metadata arcname self = closed
  ∧ set_archive_metadata metadata self = closed
  ∧ get_archive_metadata self = closed
  ∧ get_file_metadata name self = closed
  ∧ list_contents self = closed.
Proof.
  unfold __init__. intros Hinit.
  destruct (negb _); [discriminate Hinit | ]. injection Hinit as <-.
  repeat split.
Qed.

(** *** The invariant of an open handle *)

Lemma open_archive_returns (disk disk' : gmap str archive_file)
    (file m : str) (self : ZipArchive) :
  open_archive disk file m = (Returns self, disk') →
  filename self = file ∧ mode self = m
  ∧ ∃ zf, ZipFile.init disk file m = (Returns zf, disk')
          ∧ archive self = Some zf.
Proof.
  unfold open_archive, __init__, __enter__. intros Hopen.
  destruct (negb _); [discriminate Hopen | ]. cbn in Hopen.
  destruct (ZipFile.init disk file m) as [[zf | e] d] eqn:Hinit;
    [ | discriminate Hopen].
  injection Hopen as <- <-. cbn. repeat split. exists zf. split; reflexivity.
Qed.

Lemma init_fields (disk disk' : gmap str archive_file) (file m : str)
    (zf : ZipFile.t) :
  ZipFile.init disk file m = (Returns zf, disk') →
  ZipFile.filename zf = file ∧ ZipFile.mode zf = m.
Proof.
  unfold ZipFile.init. intros Hinit.
  destruct (bool_decide (m = py "r")).
  - destruct (disk !! file); [ | discriminate Hinit].
    injection Hinit as <- _. split; reflexivity.
  - destruct (bool_decide (m = py "w")); [ | discriminate Hinit].
    injection Hinit as <- _. split; reflexivity.
Qed.

Lemma add_file_keeps (files : gmap str node) (filepath : str)
    (metadata : pyval) (arcname : option str) (self self' : ZipArchive)
    (result : outcome unit) :
  handle_ok self →
  add_file files filepath metadata arcname self = (result, self') →
  handle_ok self' ∧ filename self' = filename self ∧ mode self' = mode self.
Proof.
  intros Hok Hadd. destruct result as [[] | e].
  - destruct (add_file_entry _ _ _ _ _ _ Hadd)
      as (zf & zinfo & data & c & Harch & _ & _ & _ & _ & ->).
    cbv zeta. cbn [filename mode]. split; [ | split; reflexivity].
    destruct Hok as (zf0 & Harch0 & Hf & Hm & Hidx).
    rewrite Harch in Harch0. injection Harch0 as <-.
    eexists. split; [reflexivity | ]. cbn.
    split; [exact Hf | ]. split; [exact Hm | ].
    unfold ZipFile.indexed in *. cbn. rewrite index_snoc, Hidx. reflexivity.
  - apply add_file_raises_clean in Hadd. subst self'.
    split; [exact Hok | split; reflexivity].
Qed.

Lemma set_archive_metadata_keeps (metadata : pyval) (self self' : ZipArchive)
    (result : outcome unit) :
  handle_ok self →
  set_archive_metadata metadata self = (result, self') →
  handle_ok self' ∧ filename self' = filename self ∧ mode self' = mode self.
Proof.
  intros Hok Hset. destruct result as [[] | e].
  - destruct Hok as (zf & Harch & Hf & Hm & Hidx).
    rewrite (set_archive_metadata_open _ _ _ Harch) in Hset.
    destruct (negb (bool_decide (mode self = py "w")));
      [discriminate Hset | ].
    destruct (_encode_metadata metadata) as [c | e]; [ | discriminate Hset].
    injection Hset as <-. cbn [filename mode].
    split; [ | split; reflexivity].
    eexists. split; [reflexivity | ]. cbn.
    split; [exact Hf | ]. split; [exact Hm | exact Hidx].
  - apply set_archive_metadata_raises_clean in Hset. subst self'. split; [exact Hok | split; reflexivity].
Qed.

(** X7. The handle [open_archive] returns agrees with its container on
    the file and the mode, with the index of the container in step with
    its members; [add_file] and [set_archive_metadata] keep this, and keep
    the file and the mode of the handle, whether they return or raise. *)
Theorem handle_ok_kept (disk disk' : gmap str archive_file) (file m : str)
    (files : gmap str node) (filepath : str) (metadata : pyval)
    (arcname : option str) (self : ZipArchive) :
  (open_archive disk file m = (Returns self, disk') → handle_ok self)
  ∧ (handle_ok self →
     let added := (add_file files filepath metadata arcname self).2 in
     let set := (set_archive_metadata metadata self).2 in
     (handle_ok added ∧ filename added = filename self
      ∧ mode added = mode self)
     ∧ (handle_ok set ∧ filename set = filename self
        ∧ mode set = mode self)).
Proof.
  split.
  - intros Hopen.
    destruct (open_archive_returns _ _ _ _ _ Hopen)
      as (Hfile & Hmode & zf & Hinit & Harch).
    destruct (init_fields _ _ _ _ _ Hinit) as [Hf Hm].
    exists zf. repeat split; try congruence.
    exact (init_indexed _ _ _ _ _ Hinit).
  - intros Hok. cbv zeta. split.
    + eapply add_file_keeps; [exact Hok | apply surjective_pairing].
    + eapply set_archive_metadata_keeps;
        [exact Hok | apply surjective_pairing].
Qed.

(** *** Closing and opening again *)



(** *** One item for each member *)


(** *** The two kinds of metadata do not touch each other *)

(** X12. [add_file] does not change what [get_archive_metadata] answers,
    and [set_archive_metadata] does not change what [list_contents] and
    [get_file_metadata] answer, whether they return or raise. *)
Theorem mutators_frame (files : gmap str node) (filepath : str)
    (metadata : pyval) (arcname : option str) (self : ZipArchive) :
  let added := (add_file files filepath metadata arcname self).2 in
  let set := (set_archive_metadata metadata self).2 in
  (get_archive_metadata added).1 = (get_archive_metadata self).1
  ∧ (list_contents set).1 = (list_contents self).1
  ∧ ∀ name, (get_file_metadata name set).1
            = (get_file_metadata name self).1.
Proof.
  cbv zeta. split; [ | split; [ | intros name]].
  - destruct (add_file files filepath metadata arcname self)
      as [[[] | e] added] eqn:Hadd; cbn [snd].
    + destruct (add_file_entry _ _ _ _ _ _ Hadd)
        as (zf & zinfo & data & c & Harch & _ & _ & _ & _ & ->).
      cbv zeta.
      erewrite !get_archive_metadata_open by (reflexivity || exact Harch).
      reflexivity.
    + apply add_file_raises_clean in Hadd. subst added. reflexivity.
  - destruct (set_archive_metadata metadata self)
      as [[[] | e] set] eqn:Hset; cbn [snd].
    + destruct (archive self) as [zf | ] eqn:Harch;
        [ | unfold set_archive_metadata, requires_open_archive in Hset;
            rewrite Harch in Hset; discriminate Hset].
      rewrite (set_archive_metadata_open _ _ _ Harch) in Hset.
      destruct (negb _); [discriminate Hset | ].
      destruct (_encode_metadata metadata); [ | discriminate Hset].
      injection Hset as <-.
      erewrite !list_contents_open by (reflexivity || exact Harch).
      reflexivity.
    + apply set_archive_metadata_raises_clean in Hset. subst set.
      reflexivity.
  - destruct (set_archive_metadata metadata self)
      as [[[] | e] set] eqn:Hset; cbn [snd].
    + destruct (archive self) as [zf | ] eqn:Harch;
        [ | unfold set_archive_metadata, requires_open_archive in Hset;
            rewrite Harch in Hset; discriminate Hset].
      rewrite (set_archive_metadata_open _ _ _ Harch) in Hset.
      destruct (negb _); [discriminate Hset | ].
      destruct (_encode_metadata metadata); [ | discriminate Hset].
      injection Hset as <-.
      erewrite !get_file_metadata_open by (reflexivity || exact Harch).
      cbn [ZipFile.set_comment ZipFile.NameToInfo].
      destruct (ZipFile.NameToInfo zf !! posixpath.basename name);
        reflexivity.
    + apply set_archive_metadata_raises_clean in Hset. subst set.
      reflexivity.
Qed.

(** *** Names *)

Lemma existsb_sep (p : str) : existsb (N.eqb 47) p = true ↔ 47 ∈ p.
Proof.
  rewrite existsb_exists. split.
  - intros (c & Hin & Hc). apply N.eqb_eq in Hc. subst c.
    apply list_elem_of_In. exact Hin.
  - intros Hin. exists 47. split; [apply list_elem_of_In; exact Hin | ].
    reflexivity.
Qed.

Lemma basename_no_sep (p : str) : 47 ∉ posixpath.basename p.
Proof.
  induction p as [ | c p IH]; [apply not_elem_of_nil | ].
  cbn [posixpath.basename].
  destruct (existsb (N.eqb 47) p) eqn:Hsep; [exact IH | ].
  assert (Hp : 47 ∉ p).
  { intros Hin. apply existsb_sep in Hin. congruence. }
  destruct (N.eqb_spec c 47) as [-> | Hc]; [exact Hp | ].
  apply not_elem_of_cons. split; [congruence | exact Hp].
Qed.

Lemma basename_plain (p : str) : 47 ∉ p → posixpath.basename p = p.
Proof.
  destruct p as [ | c p]; [reflexivity | ]. intros Hp.
  apply not_elem_of_cons in Hp as [Hc Hp]. cbn [posixpath.basename].
  destruct (existsb (N.eqb 47) p) eqn:Hsep.
  - apply existsb_sep in Hsep. contradiction.
  - rewrite (proj2 (N.eqb_neq c 47)) by congruence. reflexivity.
Qed.

(** X8. What [get_file_metadata] returns is the decoded comment of a
    member whose name is the base name of the argument, and has no slash:
    a member stored under a name with a directory part is never the one
    it reads. *)
Theorem get_file_metadata_reads_plain_names (name : str) (value : pyval)
    (self : ZipArchive) (zf : ZipFile.t) :
  archive self = Some zf → ZipFile.indexed zf →
  get_file_metadata name self = (Returns value, self) →
  ∃ info, info ∈ ZipFile.filelist zf
          ∧ ZipInfo.filename info = posixpath.basename name
          ∧ (47 ∉ ZipInfo.filename info)
          ∧ _decode_metadata (ZipInfo.comment info) = Returns value.
Proof.
  intros Harch Hidx Hget.
  rewrite (get_file_metadata_open _ _ _ Harch), Hidx in Hget.
  pose proof (index_lookup (ZipFile.filelist zf) (posixpath.basename name))
    as Hlook.
  destruct (ZipFile.index (ZipFile.filelist zf) !! posixpath.basename name)
    as [info | ]; [ | discriminate Hget].
  destruct Hlook as [Hin Hname]. exists info.
  split; [exact Hin | ]. split; [exact Hname | ].
  split; [rewrite Hname; apply basename_no_sep | congruence].
Qed.







(** *** The outcome of encoding *)




(** *** The archive that [create] builds *)

Lemma add_files_cons (files : gmap str node) (metadata_for : str → pyval)
    (file : str) (paths : list str) (self : ZipArchive) :
  add_files files metadata_for (file :: paths) self
  = match add_file files file (metadata_for file) None self with
    | (Returns _, self') | (Raises (FileNotFoundError _), self') =>
      add_files files metadata_for paths self'
    | (Raises e, self') => (Raises e, self')
    end.
Proof. reflexivity. Qed.


(** X13. On an open handle in mode ['w'], the loop of [create] over the
    files does what it does over the files that exist, the others being
    passed over, and it never raises [FileNotFoundError]. *)
Theorem add_files_skips_missing (files : gmap str node)
    (metadata_for : str → pyval) (paths : list str) (self : ZipArchive) :
  handle_ok self → mode self = py "w" →
  add_files files metadata_for paths self
  = add_files files metadata_for
      (filter (λ file, is_Some (files !! file)) paths) self
  ∧ ∀ path, (add_files files metadata_for paths self).1
            ≠ Raises (FileNotFoundError path).
Proof.
  revert self. induction paths as [ | file paths IH]; intros self Hok Hmode.
  - split; [reflexivity | discriminate].
  - destruct Hok as (zf & Harch & Hf & Hm & Hidx).
    assert (Hok : handle_ok self) by (exists zf; auto).
    rewrite add_files_cons.
    destruct (files !! file) as [nd | ] eqn:Hfile.
    + rewrite filter_cons_True by (rewrite Hfile; eexists; reflexivity).
      rewrite add_files_cons.
      destruct (add_file files file (metadata_for file) None self)
        as [result self1] eqn:Hadd.
      destruct (add_file_keeps _ _ _ _ _ _ _ Hok Hadd) as (Hok1 & _ & Hm1).
      destruct (IH self1 Hok1 ltac:(congruence)) as [Heq Hnever].
      destruct result as [[] | e]; [exact (conj Heq Hnever) | ].
      destruct e; try (split; [reflexivity | discriminate]).
      exact (conj Heq Hnever).
    + rewrite filter_cons_False
        by (rewrite Hfile; intros [x Hx]; discriminate Hx).
      rewrite (add_file_open _ _ _ _ _ _ Harch), Hmode, Hfile.
      cbn. apply IH; assumption.
Qed.


End Properties.

(** ** The definitions on concrete inputs *)

#[local] Existing Instance text_float.

Example basename_example :
  posixpath.basename (py "/tmp/dir1/test.txt") = py "test.txt".
Proof. reflexivity. Qed.

Example normpath_example :
  posixpath.normpath (py "a//b/./../c.txt") = py "a/c.txt".
Proof. vm_compute. reflexivity. Qed.

Example utf8_replace_example :
  utf8.decode utf8.replace (pyb "a" ++ [xe2; x82; xff])
  = Returns [97; 0xFFFD; 0xFFFD].
Proof. reflexivity. Qed.

Example json_dumps_example :
  json_dumps sample_metadata
  = Returns (py "{" ++ 34 :: py "type" ++ 34 :: py ": " ++ 34 :: py "text"
             ++ 34 :: py ", " ++ 34 :: py "tags" ++ 34
             :: py ": [1, -20, null, true, " ++ 34
             :: py "\u00e9\ud83d\ude00\n\" ++ 34 :: 34 :: py "], " ++ 34
             :: py "nested" ++ 34 :: py ": {" ++ 34 :: py "empty" ++ 34
             :: py ": []}}").
Proof. vm_compute. reflexivity. Qed.

Example decode_not_json :
  _decode_metadata (pyb "not json")
  = Returns (PDict [(py "comment", PStr (py "not json"))]).
Proof. vm_compute. reflexivity. Qed.

Example end_to_end :
  with_archive demo_disk (py "a.zip") (py "r")
    (contents ← list_contents;
     entry ← get_file_metadata (py "doc.txt");
     whole ← get_archive_metadata;
     mret (contents, entry, whole))
  = (Returns ([PDict [(py "filename", PStr (py "doc.txt"));
                      (py "size", PInt 5); (py "compressed_size", PInt 5);
                      (py "metadata", tagged "type" "text")]],
              tagged "type" "text", tagged "project" "demo"),
     demo_disk).
Proof. vm_compute. reflexivity. Qed.

(** Two surrogate code points side by side are not Unicode text, and the
    scanner reads their escapes as one character. *)
Example surrogates_are_joined :
  unicode_text [0xD800; 0xDC00] = false
  ∧ _encode_metadata (PStr [0xD800; 0xDC00]) ≫= _decode_metadata
    = Returns (PStr [0x10000]).
Proof. split; vm_compute; reflexivity. Qed.

Example invalid_mode :
  __init__ (py "a.zip") (py "a")
  = Raises (ValueError "Mode must be 'w' for write or 'r' for read").
Proof. reflexivity. Qed.

(** ** The theorems at concrete inputs *)




Lemma add_file_missing_source_witness :
  ∃ self zf,
    (open_archive ∅ (py "a.zip") (py "w")).1 = Returns self
    ∧ archive self = Some zf ∧ mode self = py "w"
    ∧ test_files !! py "/no/such/file" = None
    ∧ add_file test_files (py "/no/such/file") (tagged "type" "text") None
        self
      = (Raises (FileNotFoundError (py "/no/such/file")), self).
Proof.
  eexists _, _. split; [vm_compute; reflexivity | ].
  split; [reflexivity | ]. split; [reflexivity | ].
  split; [vm_compute; reflexivity | ].
  eapply (@add_file_missing_source text_float);
    [reflexivity | reflexivity | vm_compute; reflexivity].
Defined.



Lemma add_file_empty_metadata_witness :
  ∃ self self' zf',
    (open_archive ∅ (py "a.zip") (py "w")).1 = Returns self
    ∧ add_file test_files (py "/tmp/doc.txt") (PDict []) None self
      = add_file test_files (py "/tmp/doc.txt") PNone None self
    ∧ add_file test_files (py "/tmp/doc.txt") (PDict []) None self
      = (Returns (), self')
    ∧ archive self' = Some zf'
    ∧ ZipInfo.comment <$> ZipFile.filelist zf' = [[]].
Proof.
  eexists _, _, _. split; [vm_compute; reflexivity | ].
  split.
  - match goal with
    | |- add_file _ _ _ _ ?self = _ =>
      exact (proj1 (@add_file_empty_metadata text_float test_files
                      (py "/tmp/doc.txt") None self))
    end.
  - split; [vm_compute; reflexivity | ]. split; reflexivity.
Defined.

Lemma add_file_mode_before_source_witness :
  ∃ self zf,
    (open_archive demo_disk (py "a.zip") (py "r")).1
    = Returns self
    ∧ archive self = Some zf ∧ mode self = py "r"
    ∧ test_files !! py "/no/such/file" = None
    ∧ add_file test_files (py "/no/such/file") PNone None self
      = (Raises (RuntimeError
                   "Archive must be opened in write mode to add files"),
         self).
Proof.
  eexists _, _. split; [vm_compute; reflexivity | ].
  split; [reflexivity | ]. split; [reflexivity | ].
  split; [vm_compute; reflexivity | ].
  match goal with
  | |- add_file _ _ _ _ ?self = _ =>
    apply (proj1 (@add_file_mode_before_source text_float test_files
                    (py "/no/such/file") PNone None self _ eq_refl eq_refl
                    ltac:(vm_compute; reflexivity)))
  end.
Defined.


Lemma set_archive_metadata_last_wins_witness :
  ∃ self self1,
    (open_archive ∅ (py "a.zip") (py "w")).1 = Returns self
    ∧ set_archive_metadata (tagged "project" "demo") self
      = (Returns (), self1)
    ∧ (set_archive_metadata sample_metadata self1).1
      = (set_archive_metadata sample_metadata self).1
    ∧ ∀ self2,
        set_archive_metadata sample_metadata self1 = (Returns (), self2) →
        set_archive_metadata sample_metadata self = (Returns (), self2).
Proof.
  eexists _, _. split; [vm_compute; reflexivity | ].
  split; [vm_compute; reflexivity | ].
  apply (@set_archive_metadata_last_wins text_float
           (tagged "project" "demo")).
  vm_compute. reflexivity.
Defined.


Lemma mutators_raise_clean_witness :
  ∃ self self',
    (open_archive demo_disk (py "a.zip") (py "r")).1 = Returns self
    ∧ add_file test_files (py "/tmp/doc.txt") PNone None self
      = (Raises (RuntimeError
                   "Archive must be opened in write mode to add files"),
         self')
    ∧ self' = self.
Proof.
  eexists _, _. split; [vm_compute; reflexivity | ].
  split; [vm_compute; reflexivity | ].
  apply (@mutators_raise_clean text_float test_files (py "/tmp/doc.txt")
           PNone None _ _
           (RuntimeError "Archive must be opened in write mode to add files")).
  left. vm_compute. reflexivity.
Defined.

Lemma methods_require_open_witness :
  ∃ self,
    __init__ (py "a.zip") (py "w") = Returns self
    ∧ add_file test_files (py "/tmp/doc.txt") PNone None self
      = (Raises (RuntimeError "Archive not opened. Use with context manager."),
         self)
    ∧ set_archive_metadata PNone self
      = (Raises (RuntimeError "Archive not opened. Use with context manager."),
         self)
    ∧ get_archive_metadata self
      = (Raises (RuntimeError "Archive not opened. Use with context manager."),
         self)
    ∧ get_file_metadata (py "doc.txt") self
      = (Raises (RuntimeError "Archive not opened. Use with context manager."),
         self)
    ∧ list_contents self
      = (Raises (RuntimeError "Archive not opened. Use with context manager."),
         self).
Proof.
  eexists. split; [reflexivity | ].
  apply (@methods_require_open text_float (py "a.zip") (py "w")).
  reflexivity.
Defined.


Lemma handle_ok_kept_witness :
  ∃ self,
    open_archive ∅ (py "a.zip") (py "w")
    = (Returns self, delete (py "a.zip") ∅)
    ∧ handle_ok self
    ∧ handle_ok (add_file test_files (py "/tmp/doc.txt")
                   (tagged "type" "text") None self).2
    ∧ handle_ok (set_archive_metadata (tagged "type" "text") self).2.
Proof.
  eexists. split; [reflexivity | ].
  match goal with
  | |- handle_ok ?self ∧ _ =>
    destruct (@handle_ok_kept text_float ∅ (delete (py "a.zip") ∅)
                (py "a.zip") (py "w") test_files (py "/tmp/doc.txt")
                (tagged "type" "text") None self)
      as [Hopen Hkept]
  end.
  pose proof (Hopen eq_refl) as Hok.
  destruct (Hkept Hok) as [(Hadded & _) (Hset & _)].
  split; [exact Hok | ]. split; [exact Hadded | exact Hset].
Defined.

Lemma get_file_metadata_reads_plain_names_witness :
  ∃ self zf,
    (open_archive demo_disk (py "a.zip") (py "r")).1 = Returns self
    ∧ archive self = Some zf ∧ ZipFile.indexed zf
    ∧ get_file_metadata (py "/tmp/doc.txt") self
      = (Returns (tagged "type" "text"), self)
    ∧ ∃ info,
        info ∈ ZipFile.filelist zf
        ∧ ZipInfo.filename info = posixpath.basename (py "/tmp/doc.txt")
        ∧ (47 ∉ ZipInfo.filename info)
        ∧ _decode_metadata (ZipInfo.comment info)
          = Returns (tagged "type" "text").
Proof.
  eexists _, _. split; [vm_compute; reflexivity | ].
  split; [reflexivity | ]. split; [vm_compute; reflexivity | ].
  split; [vm_compute; reflexivity | ].
  match goal with
  | |- ∃ info, info ∈ ZipFile.filelist ?zf ∧ _ =>
    apply (@get_file_metadata_reads_plain_names text_float
             (py "/tmp/doc.txt") (tagged "type" "text")
             {| filename := py "a.zip"; mode := py "r";
                archive := Some zf |} zf)
  end; [reflexivity | vm_compute; reflexivity | vm_compute; reflexivity].
Defined.




Lemma add_files_skips_missing_witness :
  ∃ self,
    (open_archive ∅ (py "a.zip") (py "w")).1 = Returns self
    ∧ handle_ok self ∧ mode self = py "w"
    ∧ add_files test_files (λ _, tagged "type" "text")
        [py "/tmp/doc.txt"; py "/no/such/file"; py "/tmp/dir2/test.txt"]
        self
      = add_files test_files (λ _, tagged "type" "text")
          [py "/tmp/doc.txt"; py "/tmp/dir2/test.txt"] self
    ∧ ∀ path,
        (add_files test_files (λ _, tagged "type" "text")
           [py "/tmp/doc.txt"; py "/no/such/file"; py "/tmp/dir2/test.txt"]
           self).1
        ≠ Raises (FileNotFoundError path).
Proof.
  eexists. split; [vm_compute; reflexivity | ].
  match goal with
  | |- handle_ok ?self ∧ _ =>
    assert (Hhandle : handle_ok self)
      by (eexists; split; [reflexivity | ]; split; [reflexivity | ];
          split; [reflexivity | vm_compute; reflexivity]);
    split; [exact Hhandle | ]; split; [reflexivity | ];
    exact (@add_files_skips_missing text_float test_files
             (λ _, tagged "type" "text")
             [py "/tmp/doc.txt"; py "/no/such/file"; py "/tmp/dir2/test.txt"]
             self Hhandle eq_refl)
  end.
Defined.

